(** * Pat-Vara: the VARA modem client, session engine

    A shallow embedding of the Go package [vara] and the properties of its
    connection state machine.  The package is in [vara/vara.go] (the
    session), [vara/listener.go] (the listener) and, after the manual driver
    in [vara/cmd/vara-driver/main.go], the transport interfaces ([DialURL])
    and the data connection ([varaDataConn]).

    Modelling conventions.
    - A [*net.TCPConn] is an index into the socket table of the [World];
      a nil pointer is [None].  Copies of a handle alias the same socket.
    - [connectChange], a [chan connectedState] of capacity 1, is an index
      into the channel table of the [World]; its buffer is an
      [option connectedState].  A by-value copy of a [Modem] shares the
      channel and the sockets, but not the struct fields.
    - A method with receiver [m *Modem] is a computation in the monad [M]
      over [Modem * World].  A computation ends in [Done], is suspended on a
      channel operation ([Blocked], with the state at the suspension point),
      or dies on a nil dereference ([Panic]).
    - The network is an environment [Env]: it decides, from the history of
      effects, whether a resolve, a dial or a write fails.
    - The effects of a computation are appended to [trace].
    - One call is one atomic step; the Event Reader is a separate thread of
      such steps, one per line it dispatches.  A call suspended at its
      receive on the notification slot is resumed at that receive, in the
      state the Event Reader has left: [DialURL] is cut there, into
      [DialURL_request] and [DialURL_wait], and [DialURL_with] schedules
      the two with the Event Reader in between.
    - The structs have addresses ([Memory]): a [*Modem] points to a struct
      made by [NewModem] or to the field [modem] of a [varaDataConn], and a
      method writes to the struct its receiver points to. *)

From Stdlib Require Import ZArith String Ascii List DecimalString Lia.
From stdpp Require Import base tactics option list strings gmap.

Open Scope Z_scope.

(** ** Strings *)

(** The carriage return of [cmd + "\r"] and of [strings.Split(_, "\r")]. *)
Definition CR : ascii := "013"%char.
Definition CRs : string := String CR EmptyString.

(** [%d] of [fmt.Sprintf]. *)
Definition Z_to_string (z : Z) : string := NilZero.string_of_int (Z.to_int z).

(** [strings.HasPrefix(s, p)]. *)
Definition HasPrefix (s p : string) : bool := String.prefix p s.

(** [strings.Split(s, sep)] for a separator of one byte: the fragments
    between the separators, in order; [n] separators give [n + 1]
    fragments, so the empty string gives one empty fragment. *)
Fixpoint Split (s : string) (sep : ascii) : list string :=
  match s with
  | EmptyString => [EmptyString]
  | String a s' =>
      if Ascii.eqb a sep then EmptyString :: Split s' sep
      else match Split s' sep with
           | [] => [String a EmptyString]
           | f :: fs => String a f :: fs
           end
  end.

(** [s] has no byte [a]. *)
Fixpoint lacks (a : ascii) (s : string) : bool :=
  match s with
  | EmptyString => true
  | String b s' => negb (Ascii.eqb b a) && lacks a s'
  end.

(** [contains], the helper of [setBandwidth]. *)
Fixpoint contains (c : list string) (s : string) : bool :=
  match c with
  | [] => false
  | e :: c' => if String.eqb e s then true else contains c' s
  end.

(** ** Data model *)

(** [connectedState]: [connected] is [iota] = 0, [disconnected] is 1. *)
Inductive connectedState := connected | disconnected.

#[global] Instance connectedState_eq_dec : EqDecision connectedState.
Proof. solve_decision. Defined.

Record ModemConfig := mkConfig {
  Host : string;
  CmdPort : Z;
  DataPort : Z
}.

Definition defaultConfig : ModemConfig :=
  {| Host := "localhost"; CmdPort := 8300; DataPort := 8301 |}.

(** [mergo.Merge(&config, defaultConfig)]: a field that holds the zero value
    of its type takes the default. *)
Definition mergo_Merge (dst src : ModemConfig) : ModemConfig :=
  {| Host := if String.eqb (Host dst) "" then Host src else Host dst;
     CmdPort := if Z.eqb (CmdPort dst) 0 then CmdPort src else CmdPort dst;
     DataPort := if Z.eqb (DataPort dst) 0 then DataPort src else DataPort dst |}.

(** Handles: sockets, channels and PTT controllers live in the world. *)
Abbreviation TCPConn := nat (only parsing).
Abbreviation Chan := nat (only parsing).
Abbreviation PTTController := nat (only parsing).

Record Modem := mkModem {
  scheme : string;
  myCall : string;
  config : ModemConfig;
  cmdConn : option TCPConn;
  dataConn : option TCPConn;
  toCall : string;
  busy : bool;
  connectChange : Chan;
  lastState : connectedState;
  rig : option PTTController
}.

Definition set_cmdConn (c : option TCPConn) (m : Modem) : Modem :=
  mkModem (scheme m) (myCall m) (config m) c (dataConn m) (toCall m)
          (busy m) (connectChange m) (lastState m) (rig m).
Definition set_dataConn (c : option TCPConn) (m : Modem) : Modem :=
  mkModem (scheme m) (myCall m) (config m) (cmdConn m) c (toCall m)
          (busy m) (connectChange m) (lastState m) (rig m).
Definition set_toCall (t : string) (m : Modem) : Modem :=
  mkModem (scheme m) (myCall m) (config m) (cmdConn m) (dataConn m) t
          (busy m) (connectChange m) (lastState m) (rig m).
Definition set_busy (b : bool) (m : Modem) : Modem :=
  mkModem (scheme m) (myCall m) (config m) (cmdConn m) (dataConn m) (toCall m)
          b (connectChange m) (lastState m) (rig m).
Definition set_lastState (st : connectedState) (m : Modem) : Modem :=
  mkModem (scheme m) (myCall m) (config m) (cmdConn m) (dataConn m) (toCall m)
          (busy m) (connectChange m) st (rig m).
Definition set_rig (r : option PTTController) (m : Modem) : Modem :=
  mkModem (scheme m) (myCall m) (config m) (cmdConn m) (dataConn m) (toCall m)
          (busy m) (connectChange m) (lastState m) r.

(** [Addr]: the call sign (the embedded string) and the scheme. *)
Record Addr := mkAddr { addr_string : string; addr_scheme : string }.

Definition Network (a : Addr) : string := addr_scheme a.
Definition String_ (a : Addr) : string := addr_string a.

(** [varaDataConn]: the embedded [net.TCPConn] is a copy of the
    struct the data handle points to (same socket), [modem] is a copy of the
    session struct. *)
Record varaDataConn := mkDataConn {
  conn_TCPConn : TCPConn;
  modem : Modem
}.

(** [transport.URL], the fields this package reads.  [Params] is a
    [url.Values], a map from a key to its list of values. *)
Record URL := mkURL {
  Scheme : string;
  Target : string;
  Params : gmap string (list string)
}.

(** [url.Values.Get]: the first value of the key, the empty string when the
    key is absent or has no value. *)
Definition Values_Get (v : gmap string (list string)) (key : string) : string :=
  match v !! key with
  | Some (x :: _) => x
  | _ => ""
  end.

(** ** Errors *)

(** Errors of the net package as this code tells them apart
    ([errors.Is(err, io.EOF)], [errors.Is(err, net.ErrClosed)]). *)
Inductive neterr := EOF | ErrClosed | ErrOther (msg : string).

Inductive error :=
| ErrUnsupportedScheme                       (* transport.ErrUnsupportedScheme *)
| errors_New (msg : string)                  (* errors.New(msg) *)
| fmt_Errorf (msg : string) (cause : neterr) (* fmt.Errorf(msg %w, cause) *)
| ErrNet (e : neterr).                       (* an error of conn.Write *)

Inductive result (A : Type) := Ok (a : A) | Err (e : error).
Arguments Ok {A} a.
Arguments Err {A} e.

(** ** The world *)

Inductive Event :=
| EvResolve (addr : string) (err : option neterr)   (* net.ResolveTCPAddr *)
| EvDial (addr : string) (res : neterr + TCPConn)   (* net.DialTCP *)
| EvWrite (c : TCPConn) (bytes : string) (err : option neterr)
| EvClose (c : TCPConn)                             (* conn.Close *)
| EvSetPTT (r : PTTController) (on : bool)          (* rig.SetPTT(on) *)
| EvGo_cmdListen (c : option TCPConn)               (* go m.cmdListen() *)
| EvAfter (d : Z)                                   (* a time.After(d) that fired *)
| EvLog (msg : string).                             (* log.Printf, log.Println *)

Record Socket := mkSocket { sock_addr : string; sock_open : bool }.

Record World := mkWorld {
  trace : list Event;                     (* oldest first *)
  socks : list Socket;                    (* indexed by TCPConn *)
  chans : list (option connectedState)    (* indexed by Chan: the buffer *)
}.

Definition set_trace (t : list Event) (w : World) : World :=
  mkWorld t (socks w) (chans w).
Definition set_socks (s : list Socket) (w : World) : World :=
  mkWorld (trace w) s (chans w).
Definition set_chans (c : list (option connectedState)) (w : World) : World :=
  mkWorld (trace w) (socks w) c.

(** The modem program and the network between it and this client. *)
Record Env := mkEnv {
  debug : bool;      (* VARA_DEBUG is set *)
  env_resolve : list Event -> string -> option neterr;
  env_dial : list Event -> string -> option neterr;
  env_write : list Event -> TCPConn -> string -> option neterr
}.

(** ** The monad of methods *)

Definition State := (Modem * World)%type.

Inductive outcome (A : Type) :=
| Done (a : A) (s : State)
| Blocked (s : State)
| Panic (s : State).
Arguments Done {A} a s.
Arguments Blocked {A} s.
Arguments Panic {A} s.

Definition state_of {A} (o : outcome A) : State :=
  match o with Done _ s => s | Blocked s => s | Panic s => s end.

Definition M (A : Type) := State -> outcome A.

Definition retM {A} (a : A) : M A := fun s => Done a s.

Definition bindM {A B} (c : M A) (f : A -> M B) : M B := fun s =>
  match c s with
  | Done a s' => f a s'
  | Blocked s' => Blocked s'
  | Panic s' => Panic s'
  end.

(** [if err := c; err != nil { return err }; k]. *)
Definition tryM {A B} (c : M (result A)) (k : A -> M (result B)) : M (result B) :=
  bindM c (fun r => match r with Ok a => k a | Err e => retM (Err e) end).

Declare Scope vara_scope.
Delimit Scope vara_scope with vara.
Notation "x ← c ; k" := (bindM c (fun x => k))
  (at level 20, c at level 100, k at level 200, only parsing) : vara_scope.
Notation "c ;; k" := (bindM c (fun _ => k))
  (at level 100, k at level 200, only parsing) : vara_scope.
Notation "x ←? c ; k" := (tryM c (fun x => k))
  (at level 20, c at level 100, k at level 200, only parsing) : vara_scope.
Notation "c ;;? k" := (tryM c (fun _ => k))
  (at level 100, k at level 200, only parsing) : vara_scope.
Open Scope vara_scope.

Definition get_m : M Modem := fun s => Done s.1 s.
Definition get_w : M World := fun s => Done s.2 s.
Definition upd_m (f : Modem -> Modem) : M unit := fun s => Done tt (f s.1, s.2).
Definition upd_w (f : World -> World) : M unit := fun s => Done tt (s.1, f s.2).
Definition emit (e : Event) : M unit :=
  upd_w (fun w => set_trace (trace w ++ [e]) w).
Definition panic {A} : M A := fun s => Panic s.

(** [ch <- v] on a channel of capacity 1: it blocks while the buffer is
    full, and forever on a nil channel. *)
Definition chan_send (ch : Chan) (v : connectedState) : M unit := fun s =>
  match chans s.2 !! ch with
  | Some None => Done tt (s.1, set_chans (<[ch := Some v]> (chans s.2)) s.2)
  | _ => Blocked s
  end.

(** [<-ch]: it blocks while the buffer is empty. *)
Definition chan_recv (ch : Chan) : M connectedState := fun s =>
  match chans s.2 !! ch with
  | Some (Some v) => Done v (s.1, set_chans (<[ch := None]> (chans s.2)) s.2)
  | _ => Blocked s
  end.

(** [time.Second], a [time.Duration] in nanoseconds. *)
Definition time_Second : Z := 1000000000.

(** [select { case res := <-ch: ...; case <-time.After(d): ... }], resolved
    when it is entered: a buffered value is received; with an empty buffer
    nothing is published while the call waits, and the timer fires after
    [d]. *)
Definition select_recv_or_After (ch : Chan) (d : Z) : M (option connectedState) :=
  fun s =>
  match chans s.2 !! ch with
  | Some (Some v) => Done (Some v) (s.1, set_chans (<[ch := None]> (chans s.2)) s.2)
  | _ => (emit (EvAfter d);; retM None) s
  end.

(** ** The package [vara] *)

(** [var bandwidths = []string{"500", "2300", "2750"}]. *)
Definition bandwidths : list string := ["500"; "2300"; "2750"].
Definition Bandwidths : list string := bandwidths.

(** [NewModem]: the merge of two [ModemConfig] values cannot fail, so the
    error result is always nil; [make(chan connectedState, 1)] allocates the
    next channel of the world, with an empty buffer. *)
Definition NewModem (scheme myCall : string) (config : ModemConfig) (w : World)
  : Modem * World :=
  let config := mergo_Merge config defaultConfig in
  ({| scheme := scheme; myCall := myCall; config := config;
      cmdConn := None; dataConn := None; toCall := ""; busy := false;
      connectChange := length (chans w);
      lastState := disconnected; rig := None |},
   set_chans (chans w ++ [None]) w).

Section Vara.

Variable env : Env.

(** [debugPrint]. *)
Definition debugPrint (msg : string) : M unit :=
  if debug env then emit (EvLog ("[VARA] " +:+ msg)) else retM tt.

(** [log.Printf] and [log.Println]. *)
Definition log_Print (msg : string) : M unit := emit (EvLog msg).

(** *** The net package *)

Definition net_ResolveTCPAddr (addr : string) : M (option neterr) :=
  w ← get_w;
  let r := env_resolve env (trace w) addr in
  emit (EvResolve addr r);; retM r.

(** A successful [net.DialTCP] opens the next socket of the world. *)
Definition net_DialTCP (addr : string) : M (neterr + TCPConn) :=
  w ← get_w;
  match env_dial env (trace w) addr with
  | Some e => emit (EvDial addr (inl e));; retM (inl e)
  | None =>
      let c := length (socks w) in
      upd_w (fun w => set_socks (socks w ++ [mkSocket addr true]) w);;
      emit (EvDial addr (inr c));; retM (inr c)
  end.

(** [conn.Write]: on a closed socket it fails with [net.ErrClosed], on an
    open one the environment decides. *)
Definition conn_Write (c : TCPConn) (bytes : string) : M (result unit) :=
  w ← get_w;
  let err := match socks w !! c with
             | Some sk => if sock_open sk then env_write env (trace w) c bytes
                          else Some ErrClosed
             | None => Some ErrClosed
             end in
  emit (EvWrite c bytes err);;
  retM (match err with None => Ok tt | Some e => Err (ErrNet e) end).

(** [conn.Close]; its error is dropped by the only caller. *)
Definition conn_Close (c : TCPConn) : M unit :=
  upd_w (fun w => set_socks (alter (fun sk => mkSocket (sock_addr sk) false) c (socks w)) w);;
  emit (EvClose c).

(** *** The session (vara.go) *)

Definition connectTCP (name : string) (port : Z) : M (result TCPConn) :=
  debugPrint ("Connecting " +:+ name +:+ " TCP port");;
  m ← get_m;
  let addr := Host (config m) +:+ ":" +:+ Z_to_string port in
  r ← net_ResolveTCPAddr addr;
  match r with
  | Some e => retM (Err (fmt_Errorf ("couldn't resolve VARA " +:+ name +:+ " address: ") e))
  | None =>
      r ← net_DialTCP addr;
      match r with
      | inl e => retM (Err (fmt_Errorf ("couldn't connect to VARA " +:+ name +:+ " port: ") e))
      | inr conn => retM (Ok conn)
      end
  end.

Definition disconnectTCP (name : string) (port : option TCPConn) : M (option TCPConn) :=
  match port with
  | None => retM None
  | Some c =>
      conn_Close c;;
      debugPrint ("disconnected " +:+ name +:+ " TCP port");;
      retM None
  end.

(** [writeCmd]: [m.cmdConn.Write] on a nil [*net.TCPConn] dereferences the
    nil pointer to reach the embedded [conn]. *)
Definition writeCmd (cmd : string) : M (result unit) :=
  debugPrint ("writing cmd: " +:+ cmd);;
  m ← get_m;
  match cmdConn m with
  | None => panic
  | Some c => conn_Write c (cmd +:+ CRs)
  end.

Definition sendPTT (on : bool) : M unit :=
  m ← get_m;
  match rig m with
  | Some r => emit (EvSetPTT r on)
  | None => retM tt
  end.

Definition handleConnect : M unit :=
  upd_m (set_lastState connected);;
  m ← get_m;
  chan_send (connectChange m) connected.

Definition handleDisconnect : M unit :=
  upd_m (set_lastState disconnected);;
  m ← get_m;
  chan_send (connectChange m) disconnected;;
  (* Close data port TCP connection *)
  m ← get_m;
  d ← disconnectTCP "data" (dataConn m);
  upd_m (set_dataConn d);;
  (* Close command port TCP connection *)
  m ← get_m;
  c ← disconnectTCP "command" (cmdConn m);
  upd_m (set_cmdConn c);;
  upd_m (set_toCall "");;
  upd_m (set_busy false).

(** [start]. *)
Definition start : M (result unit) :=
  (* Open the VARA command TCP port if it isn't *)
  (m ← get_m;
   match cmdConn m with
   | None =>
       c ←? connectTCP "command" (CmdPort (config m));
       upd_m (set_cmdConn (Some c));; retM (Ok tt)
   | Some _ => retM (Ok tt)
   end) ;;?
  (* Start listening for incoming VARA commands *)
  (m ← get_m; emit (EvGo_cmdListen (cmdConn m)));;
  (* Open the VARA data TCP port if it isn't *)
  (m ← get_m;
   match dataConn m with
   | None =>
       d ←? connectTCP "data" (DataPort (config m));
       upd_m (set_dataConn (Some d));; retM (Ok tt)
   | Some _ => retM (Ok tt)
   end) ;;?
  (* channel is not busy until Vara tells otherwise *)
  upd_m (set_busy false);;
  (* Select public *)
  writeCmd "PUBLIC ON" ;;?
  (* CWID enable *)
  (m ← get_m;
   if String.eqb (scheme m) "varahf" then writeCmd "CWID ON" else retM (Ok tt)) ;;?
  (* Set compression *)
  writeCmd "COMPRESSION TEXT" ;;?
  (* Set MYCALL *)
  (m ← get_m; writeCmd ("MYCALL " +:+ myCall m)) ;;?
  retM (Ok tt).

(** The [select] of [Close]. *)
Definition Close_select : M (result unit) :=
  m ← get_m;
  sel ← select_recv_or_After (connectChange m) (time_Second * 10);
  match sel with
  | Some res =>
      if decide (res ≠ disconnected) then
        log_Print "Disconnect failed, aborting!";;
        writeCmd "ABORT"
      else retM (Ok tt)
  | None => writeCmd "ABORT"
  end.

(** [Close]. *)
Definition Close : M (result unit) :=
  (* Block until VARA modem acks disconnect *)
  (m ← get_m;
   if decide (lastState m = connected) then
     (* Send DISCONNECT command *)
     (match cmdConn m with
      | Some _ => writeCmd "DISCONNECT"
      | None => retM (Ok tt)
      end) ;;?
     Close_select
   else retM (Ok tt)) ;;?
  (* Make sure to stop TX *)
  sendPTT false;;
  (* Clear up internal state *)
  handleDisconnect;;
  retM (Ok tt).

(** [handleCmd]: [true] when listening should continue. *)
Definition handleCmd (c : string) : M bool :=
  debugPrint ("got cmd: " +:+ c);;
  if String.eqb c "PTT ON" then sendPTT true;; retM true
  else if String.eqb c "PTT OFF" then sendPTT false;; retM true
  else if String.eqb c "BUSY ON" then upd_m (set_busy true);; retM true
  else if String.eqb c "BUSY OFF" then upd_m (set_busy false);; retM true
  else if String.eqb c "OK" then retM true
  else if String.eqb c "IAMALIVE" then retM true
  else if String.eqb c "PENDING" then retM true
  else if String.eqb c "DISCONNECTED" then handleDisconnect;; retM false
  else if HasPrefix c "CONNECTED" then handleConnect;; retM true
  else if HasPrefix c "BUFFER" then retM true
  else if HasPrefix c "REGISTERED" then
    match Split c " " with
    | _ :: p1 :: _ =>
        log_Print ("VARA full speed available, registered to " +:+ p1);; retM true
    | _ => retM true
    end
  else
    log_Print ("got a vara command I wasn't expecting: " +:+ c);; retM true.

(** The loop [for _, c := range cmds] of [cmdListen]: [false] when a
    [handleCmd] asked to stop, which returns from [cmdListen]. *)
Fixpoint handleCmds (cmds : list string) : M bool :=
  match cmds with
  | [] => retM true
  | c :: cmds' =>
      if String.eqb c "" then handleCmds cmds'
      else
        go ← handleCmd c;
        if go then handleCmds cmds' else retM false
  end.

(** What one [m.cmdConn.Read(buf)] gives. *)
Inductive ReadResult := ReadData (bytes : string) | ReadErr (e : neterr).

Inductive ReaderStatus :=
| ReaderReturned     (* the goroutine has ended *)
| ReaderInRead.      (* the goroutine waits in Read for more input *)

(** [cmdListen], run on the inputs the command channel delivers; a [Read]
    on a socket that was closed fails with [net.ErrClosed]. *)
Fixpoint cmdListen (reads : list ReadResult) : M ReaderStatus :=
  m ← get_m;
  match cmdConn m with
  | None => retM ReaderReturned     (* probably disconnected *)
  | Some c =>
      w ← get_w;
      match sock_open <$> socks w !! c with
      | Some true =>
          match reads with
          | [] => retM ReaderInRead
          | ReadErr EOF :: _ => retM ReaderReturned
          | ReadErr ErrClosed :: _ => retM ReaderReturned
          | ReadErr (ErrOther msg) :: reads' =>
              debugPrint ("cmdListen err: " +:+ msg);;
              cmdListen reads'
          | ReadData bytes :: reads' =>
              go ← handleCmds (Split bytes CR);
              if go then cmdListen reads' else retM ReaderReturned
          end
      | _ => retM ReaderReturned    (* Connection closed *)
      end
  end.

Definition Ping : bool := true.
Definition Version : result string := Ok "v1".

(** *** The listener (listener.go) *)

(** [Accept]; [*m.dataConn] dereferences the data handle. *)
Definition Accept : M (result varaDataConn) :=
  m ← get_m;
  (* Block until connected *)
  res ← chan_recv (connectChange m);
  if decide (res ≠ connected) then
    upd_m (set_dataConn None);;
    retM (Err (errors_New "connection failed"))
  else
    (* Hand the VARA data TCP port to the client code *)
    m ← get_m;
    match dataConn m with
    | None => panic
    | Some d => retM (Ok (mkDataConn d m))
    end.

Definition Modem_Addr (m : Modem) : Addr := mkAddr (myCall m) (scheme m).

(** [Listen]; the listener it returns is the session itself. *)
Definition Listen : M (result unit) :=
  start ;;?
  writeCmd "LISTEN ON" ;;?
  retM (Ok tt).

(** *** The transport interfaces *)

Definition setBandwidth (url : URL) : M (result unit) :=
  let bw := Values_Get (Params url) "bw" in
  if String.eqb bw "" then retM (Ok tt)
  else if negb (contains bandwidths bw) then
    retM (Err (errors_New ("bandwidth " +:+ bw +:+ " not supported")))
  else writeCmd ("BW" +:+ bw).

(** [DialURL] up to and including the CONNECT command. *)
Definition DialURL_request (url : URL) : M (result unit) :=
  m ← get_m;
  if negb (String.eqb (Scheme url) (scheme m)) then retM (Err ErrUnsupportedScheme)
  else
    start ;;?
    (* Set bandwidth from the URL *)
    setBandwidth url ;;?
    (m ← get_m;
     if String.eqb (scheme m) "varahf" then
       (* VaraHF only - Winlink or P2P? *)
       let p2p := String.eqb (Values_Get (Params url) "p2p") "true" in
       if p2p then writeCmd "P2P SESSION" else writeCmd "WINLINK SESSION"
     else retM (Ok tt)) ;;?
    (* Start connecting *)
    upd_m (set_toCall (Target url));;
    (m ← get_m; writeCmd ("CONNECT " +:+ myCall m +:+ " " +:+ toCall m)) ;;?
    retM (Ok tt).

(** [DialURL] from its receive on; [*m.dataConn] dereferences the data
    handle. *)
Definition DialURL_wait : M (result varaDataConn) :=
  m ← get_m;
  (* Block until connected *)
  res ← chan_recv (connectChange m);
  if decide (res ≠ connected) then
    upd_m (set_dataConn None);;
    retM (Err (errors_New "connection failed"))
  else
    (* Hand the VARA data TCP port to the client code *)
    m ← get_m;
    match dataConn m with
    | None => panic
    | Some d => retM (Ok (mkDataConn d m))
    end.

(** [DialURL], as one step: the statements up to the CONNECT command, then
    those from the receive on. *)
Definition DialURL (url : URL) : M (result varaDataConn) :=
  DialURL_request url ;;? DialURL_wait.

(** *** The caller and the Event Reader *)

(** A call that has come to a receive on the notification slot, with the
    goroutine of [cmdListen] beside it.  [k] are the statements of the call
    from the receive on.  When the receive finds a value, the call goes on.
    When it finds the slot empty the call is suspended there, the other
    goroutine runs [reader], and the call is resumed at its receive, in the
    state [reader] left. *)
Definition resumed_after {A B} (reader : M B) (k : M A) : M A := fun s =>
  match k s with
  | Blocked s' => (reader;; k) s'
  | o => o
  end.

(** [Accept] and [DialURL] with the Event Reader: [reads] is what the
    command channel delivers while the call is suspended at its receive. *)
Definition Accept_with (reads : list ReadResult) : M (result varaDataConn) :=
  resumed_after (cmdListen reads) Accept.

Definition DialURL_with (url : URL) (reads : list ReadResult)
  : M (result varaDataConn) :=
  DialURL_request url ;;? resumed_after (cmdListen reads) DialURL_wait.

Definition Busy (m : Modem) : bool := busy m.

Definition SetPTT (ptt : option PTTController) : M unit := upd_m (set_rig ptt).

(** *** The data connection *)

(** [varaDataConn.Close]: [v.modem.Close()] runs on the copy of the session
    held by the facade, in the world shared with the session. *)
Definition varaDataConn_Close (v : varaDataConn) (w : World)
  : outcome (result unit) := Close (modem v, w).

Definition LocalAddr (v : varaDataConn) : Addr :=
  mkAddr (myCall (modem v)) (scheme (modem v)).

Definition RemoteAddr (v : varaDataConn) : Addr :=
  mkAddr (toCall (modem v)) (scheme (modem v)).

End Vara.

(** ** Vocabulary of the statements *)

(** A command as [writeCmd] frames it. *)
Definition cmd_line (cmd : string) : string := cmd +:+ CRs.

(** What [debugPrint] adds to the trace. *)
Definition dbg (env : Env) (msg : string) : list Event :=
  if debug env then [EvLog ("[VARA] " +:+ msg)] else [].

(** The bytes handed to [conn.Write], in order, with the socket. *)
Fixpoint writes (t : list Event) : list (TCPConn * string) :=
  match t with
  | [] => []
  | EvWrite c b _ :: t' => (c, b) :: writes t'
  | _ :: t' => writes t'
  end.

(** Writes and timers, in order: what [Close] does towards the modem. *)
Fixpoint timeline (t : list Event) : list Event :=
  match t with
  | [] => []
  | EvWrite c b e :: t' => EvWrite c b e :: timeline t'
  | EvAfter d :: t' => EvAfter d :: timeline t'
  | _ :: t' => timeline t'
  end.

(** The buffer of the notification slot of a session. *)
Definition slot (m : Modem) (w : World) : option (option connectedState) :=
  chans w !! connectChange m.

(** The state of the socket behind a handle. *)
Definition sock_is_open (w : World) (c : TCPConn) : Prop :=
  sock_open <$> socks w !! c = Some true.

Definition sock_is_closed (w : World) (c : TCPConn) : Prop :=
  sock_open <$> socks w !! c = Some false.

(** Every resolve, dial and write succeeds. *)
Definition env_reliable (env : Env) : Prop :=
  (forall t a, env_resolve env t a = None) /\
  (forall t a, env_dial env t a = None) /\
  (forall t c b, env_write env t c b = None).

(** A session as [NewModem] makes it, or torn down with its notification
    consumed: no channel handle, and nothing pending in the notification
    slot. *)
Definition idle (s : State) : Prop :=
  cmdConn s.1 = None /\ dataConn s.1 = None /\ slot s.1 s.2 = Some None.

(** The dispatch table of [handleCmd]. *)
Definition exact_entries : list string :=
  ["PTT ON"; "PTT OFF"; "BUSY ON"; "BUSY OFF"; "OK"; "IAMALIVE"; "PENDING";
   "DISCONNECTED"].
Definition prefix_entries : list string := ["CONNECTED"; "BUFFER"; "REGISTERED"].

(** A line that matches no exact entry and no prefix. *)
Definition unrecognized (c : string) : Prop :=
  (c ∉ exact_entries) /\ forall p, p ∈ prefix_entries -> HasPrefix c p = false.

(** Two worlds that differ in the trace only. *)
Definition same_but_trace (w w' : World) : Prop :=
  socks w' = socks w /\ chans w' = chans w.

(** ** The effects of the methods, spelled out *)

(** Every write on an open socket succeeds. *)
Definition writes_ok (env : Env) : Prop :=
  forall t c b, env_write env t c b = None.

(** What a successful [writeCmd] adds to the trace. *)
Definition cmd_events (env : Env) (c : TCPConn) (cmd : string) : list Event :=
  dbg env ("writing cmd: " +:+ cmd) ++ [EvWrite c (cmd_line cmd) None].

(** What [disconnectTCP name port] adds to the trace. *)
Definition close_events (env : Env) (name : string) (port : option TCPConn)
  : list Event :=
  match port with
  | None => []
  | Some c => [EvClose c] ++ dbg env ("disconnected " +:+ name +:+ " TCP port")
  end.

(** The world after [disconnectTCP name port]: the socket is closed. *)
Definition close_world (env : Env) (name : string) (port : option TCPConn)
    (w : World) : World :=
  match port with
  | None => w
  | Some c =>
      mkWorld (trace w ++ close_events env name port)
              (alter (fun sk => mkSocket (sock_addr sk) false) c (socks w))
              (chans w)
  end.

(** The session after the teardown. *)
Definition torn_down (m : Modem) : Modem :=
  set_busy false (set_toCall "" (set_cmdConn None (set_dataConn None
    (set_lastState disconnected m)))).

(** What [sendPTT on] adds to the trace. *)
Definition ptt_events (m : Modem) (on : bool) : list Event :=
  match rig m with Some r => [EvSetPTT r on] | None => [] end.

(** The world after the teardown of [m], from a world with trace [t]. *)
Definition teardown_world (env : Env) (m : Modem) (t : list Event) (w : World)
  : World :=
  close_world env "command" (cmdConn m)
    (close_world env "data" (dataConn m)
       (mkWorld t (socks w) (<[connectChange m := Some disconnected]> (chans w)))).

(** [fmt.Sprintf("%s:%d", m.config.Host, port)]. *)
Definition tcp_addr (m : Modem) (port : Z) : string :=
  Host (config m) +:+ ":" +:+ Z_to_string port.

(** What a successful [connectTCP] adds to the trace; [c] is the new socket. *)
Definition connect_events (env : Env) (name addr : string) (c : TCPConn)
  : list Event :=
  dbg env ("Connecting " +:+ name +:+ " TCP port") ++
  [EvResolve addr None; EvDial addr (inr c)].

(** The session after a successful [start] on an idle session; [n] is the
    number of sockets of the world before. *)
Definition started (m : Modem) (n : nat) : Modem :=
  set_busy false (set_dataConn (Some (S n)) (set_cmdConn (Some n) m)).

(** What that [start] adds to the trace, and the sockets after it. *)
Definition start_events (env : Env) (m : Modem) (n : nat) : list Event :=
  connect_events env "command" (tcp_addr m (CmdPort (config m))) n ++
  [EvGo_cmdListen (Some n)] ++
  connect_events env "data" (tcp_addr m (DataPort (config m))) (S n) ++
  cmd_events env n "PUBLIC ON" ++
  (if String.eqb (scheme m) "varahf" then cmd_events env n "CWID ON" else []) ++
  cmd_events env n "COMPRESSION TEXT" ++
  cmd_events env n ("MYCALL " +:+ myCall m).

Definition start_socks (m : Modem) (w : World) : list Socket :=
  (socks w ++ [mkSocket (tcp_addr m (CmdPort (config m))) true]) ++
  [mkSocket (tcp_addr m (DataPort (config m))) true].

(** What [setBandwidth], the session-type command and the whole
    [DialURL_request] add to the trace when every write succeeds. *)
Definition bw_events (env : Env) (n : nat) (url : URL) : list Event :=
  let bw := Values_Get (Params url) "bw" in
  if String.eqb bw "" then [] else cmd_events env n ("BW" +:+ bw).

Definition session_events (env : Env) (m : Modem) (n : nat) (url : URL)
  : list Event :=
  if String.eqb (scheme m) "varahf" then
    if String.eqb (Values_Get (Params url) "p2p") "true"
    then cmd_events env n "P2P SESSION"
    else cmd_events env n "WINLINK SESSION"
  else [].

Definition dial_events (env : Env) (m : Modem) (n : nat) (url : URL)
  : list Event :=
  start_events env m n ++ bw_events env n url ++ session_events env m n url ++
  cmd_events env n ("CONNECT " +:+ myCall m +:+ " " +:+ Target url).

(** The bandwidth option is absent or one of [bandwidths]. *)
Definition bw_accepted (url : URL) : Prop :=
  Values_Get (Params url) "bw" = "" \/
  contains bandwidths (Values_Get (Params url) "bw") = true.

(** The result of a computation that returned. *)
Definition returned {A} (o : outcome A) : option A :=
  match o with Done a _ => Some a | _ => None end.

(** ** The structs and their pointers *)

(** [NewModem] returns [&Modem{...}], [Accept] and [DialURL] return
    [&varaDataConn{*m.dataConn, *m}]: each is a new struct.  The memory
    holds the structs of both kinds, by address, and the world. *)
Record Memory := mkMemory {
  modems : list Modem;          (* the structs made by [NewModem] *)
  conns : list varaDataConn;    (* the structs made by [Accept] and [DialURL] *)
  mem_world : World
}.

(** A [*Modem]: the address of a [Modem] made by [NewModem], or [&v.modem],
    the address of the field [modem] of a [varaDataConn]. *)
Inductive ModemPtr :=
| at_modem (i : nat)
| at_conn_modem (j : nat).

(** [*p], and [*p = m]. *)
Definition load (mem : Memory) (p : ModemPtr) : option Modem :=
  match p with
  | at_modem i => modems mem !! i
  | at_conn_modem j => modem <$> conns mem !! j
  end.

Definition store (p : ModemPtr) (m : Modem) (mem : Memory) : Memory :=
  match p with
  | at_modem i => mkMemory (<[i := m]> (modems mem)) (conns mem) (mem_world mem)
  | at_conn_modem j =>
      mkMemory (modems mem)
               (alter (fun v => mkDataConn (conn_TCPConn v) m) j (conns mem))
               (mem_world mem)
  end.

(** The call [p.f()] of a method with receiver [p *Modem]: [f] runs on the
    struct [p] points to and on the world; the struct as [f] leaves it, where
    it returns, is suspended or dies, is the struct at [p] afterwards.  The
    result is [None] when the call does not return.  No pointer of this
    program dangles; on one that does, nothing happens. *)
Definition call {A} (p : ModemPtr) (f : M A) (mem : Memory)
  : option A * Memory :=
  match load mem p with
  | Some m =>
      let o := f (m, mem_world mem) in
      (returned o,
       store p (state_of o).1 (mkMemory (modems mem) (conns mem) (state_of o).2))
  | None => (None, mem)
  end.

(** [return &varaDataConn{...}, nil]: the struct the method has built is
    allocated, and the caller gets its address. *)
Definition new_varaDataConn (r : option (result varaDataConn) * Memory)
  : option (result nat) * Memory :=
  match r with
  | (Some (Ok v), mem) =>
      (Some (Ok (length (conns mem))),
       mkMemory (modems mem) (conns mem ++ [v]) (mem_world mem))
  | (Some (Err e), mem) => (Some (Err e), mem)
  | (None, mem) => (None, mem)
  end.

(** The methods, called through pointers. *)
Module Mem.

Definition Accept (env : Env) (p : ModemPtr) (reads : list ReadResult)
    (mem : Memory) : option (result nat) * Memory :=
  new_varaDataConn (call p (Accept_with env reads) mem).

Definition DialURL (env : Env) (p : ModemPtr) (url : URL)
    (reads : list ReadResult) (mem : Memory) : option (result nat) * Memory :=
  new_varaDataConn (call p (DialURL_with env url reads) mem).

(** [v.Close()] for the [varaDataConn] at [j]: it is [v.modem.Close()], the
    method [Close] with receiver [&v.modem]. *)
Definition conn_Close (env : Env) (j : nat) (mem : Memory)
  : option (result unit) * Memory :=
  call (at_conn_modem j) (Close env) mem.

Definition Close (env : Env) (p : ModemPtr) (mem : Memory)
  : option (result unit) * Memory :=
  call p (Close env) mem.

End Mem.

(** ** Relations between the states of a computation *)

(** [respects R c]: the state where [c] ends, is suspended or dies is
    related by [R] to the state where it started. *)
Definition respects (R : relation State) {A} (c : M A) : Prop :=
  forall s, R s (state_of (c s)).

(** The events added to the trace all satisfy [P]. *)
Definition R_emits (P : Event -> Prop) : relation State :=
  fun s s' => exists t, trace s'.2 = trace s.2 ++ t /\ Forall P t.

(** The session keeps the property [I]. *)
Definition R_inv (I : Modem -> Prop) : relation State :=
  fun s s' => I s.1 -> I s'.1.

(** From session [m] and any world, [c] returns and the session is still
    [m]. *)
Definition returns_at (m : Modem) {A} (c : M A) : Prop :=
  forall w, exists a w', c (m, w) = Done a (m, w').

(** The session never holds a data channel without a command channel. *)
Definition data_needs_cmd (m : Modem) : Prop :=
  is_Some (dataConn m) -> is_Some (cmdConn m).



(** ** Operation sequences on a session *)

(** What can happen to a session: the calls of its owner, the lines the
    Event Reader dispatches (one by one, or as the reads of one run of
    [cmdListen]), and the [Close] of a facade, which acts on the shared
    world. *)
Inductive Op :=
| OpSetPTT (ptt : option PTTController)
| OpListen
| OpDialURL (url : URL)
| OpAccept
| OpClose
| OpLine (c : string)
| OpReads (reads : list ReadResult)
| OpConnClose (v : varaDataConn).

(** The state after an operation: where it returned, was suspended or died. *)
Definition run_op (env : Env) (op : Op) (s : State) : State :=
  match op with
  | OpSetPTT ptt => state_of (SetPTT ptt s)
  | OpListen => state_of (Listen env s)
  | OpDialURL url => state_of (DialURL env url s)
  | OpAccept => state_of (Accept s)
  | OpClose => state_of (Close env s)
  | OpLine c => state_of (handleCmd env c s)
  | OpReads reads => state_of (cmdListen env reads s)
  | OpConnClose v => (s.1, (state_of (varaDataConn_Close env v s.2)).2)
  end.

(** A blocked [DialURL] is resumed by [OpAccept], which runs the statements
    that follow its receive. *)
Definition run_ops (env : Env) (ops : list Op) (s : State) : State :=
  fold_left (fun s op => run_op env op s) ops s.

(** ** Concrete inputs *)

(** The environment in which nothing fails, the empty world, and a new
    session of scheme varahf and call sign ME in it. *)
Definition env_ok : Env :=
  mkEnv false (fun _ _ => None) (fun _ _ => None) (fun _ _ _ => None).

Definition world0 : World := mkWorld [] [] [].

Definition fresh_hf : State := NewModem "varahf" "ME" (mkConfig "" 0 0) world0.

Definition url_2300 : URL := mkURL "varahf" "N0CALL" {[ "bw" := ["2300"] ]}.
Definition url_vhf : URL := mkURL "varafm" "N0CALL" ∅.

(** The new session after [Listen], and after the line CONNECTED REMOTE1. *)
Definition listening : State := run_ops env_ok [OpListen] fresh_hf.
Definition called : State :=
  run_ops env_ok [OpListen; OpLine "CONNECTED REMOTE1"] fresh_hf.

(** The new session after a dial of N0CALL: suspended after CONNECT, then
    with CONNECTED N0CALL dispatched, then with the facade returned. *)
Definition answered : State :=
  run_ops env_ok [OpDialURL url_2300; OpLine "CONNECTED N0CALL"] fresh_hf.
Definition dialled : State :=
  run_ops env_ok [OpDialURL url_2300; OpLine "CONNECTED N0CALL"; OpAccept] fresh_hf.

(** The new session after a [Close]. *)
Definition closed : State := run_ops env_ok [OpClose] fresh_hf.

(** One read that holds the line CONNECTED N0CALL. *)
Definition reads_N0CALL : list ReadResult :=
  [ReadData (cmd_line "CONNECTED N0CALL")].


(** ** Vocabulary of the further properties *)

(** An event of the Event Reader's own making: a socket it closes, the PTT
    hook it keys, a log entry.  Not a resolve, a dial, a write, a timer or a
    goroutine. *)
Definition reader_event (e : Event) : Prop :=
  match e with
  | EvClose _ | EvSetPTT _ _ | EvLog _ => True
  | _ => False
  end.


(** The new session after [Close] and [Listen]. *)
Definition reopened : State := run_ops env_ok [OpClose; OpListen] fresh_hf.

(** The commands of [start], of [setBandwidth] and of the session type, by
    scheme and options. *)
Definition start_cmds (m : Modem) : list string :=
  ["PUBLIC ON"] ++
  (if String.eqb (scheme m) "varahf" then ["CWID ON"] else []) ++
  ["COMPRESSION TEXT"; "MYCALL " +:+ myCall m].

Definition dial_cmds (m : Modem) (url : URL) : list string :=
  start_cmds m ++
  (let bw := Values_Get (Params url) "bw" in
   if String.eqb bw "" then [] else ["BW" +:+ bw]) ++
  (if String.eqb (scheme m) "varahf" then
     [if String.eqb (Values_Get (Params url) "p2p") "true"
      then "P2P SESSION" else "WINLINK SESSION"]
   else []) ++
  ["CONNECT " +:+ myCall m +:+ " " +:+ Target url].

(** The Event Readers started, in order, each with the command handle it
    was started on. *)
Fixpoint spawned (t : list Event) : list (option TCPConn) :=
  match t with
  | [] => []
  | EvGo_cmdListen c :: t' => c :: spawned t'
  | _ :: t' => spawned t'
  end.

(** Environments in which something fails: every write; the resolution of
    the address of the command port; that of the data port. *)
Definition env_no_write : Env :=
  mkEnv false (fun _ _ => None) (fun _ _ => None) (fun _ _ _ => Some EOF).

Definition env_no_cmd_port : Env :=
  mkEnv false (fun _ a => if String.eqb a "localhost:8300"
                          then Some (ErrOther "no such host") else None)
        (fun _ _ => None) (fun _ _ _ => None).

Definition env_no_data_port : Env :=
  mkEnv false (fun _ a => if String.eqb a "localhost:8301"
                          then Some (ErrOther "no such host") else None)
        (fun _ _ => None) (fun _ _ _ => None).

(** A dial of N0CALL, peer-to-peer, with no bandwidth option. *)
Definition url_p2p : URL := mkURL "varahf" "N0CALL" {[ "p2p" := ["true"] ]}.

(** What identifies a session: its scheme, its call sign, its configuration
    and its notification channel. *)
Definition same_identity (m m' : Modem) : Prop :=
  scheme m' = scheme m /\ myCall m' = myCall m /\ config m' = config m /\
  connectChange m' = connectChange m.

(** The session has no remote call sign. *)
Definition no_remote (m : Modem) : Prop := toCall m = "".

(** An operation other than a dial. *)
Definition not_a_dial (op : Op) : Prop :=
  match op with OpDialURL _ => False | _ => True end.

(** * Properties *)

(** ** Basic facts *)

Lemma dbg_no_write env msg : writes (dbg env msg) = [].
Proof. unfold dbg. destruct (debug env); reflexivity. Qed.

Lemma writes_app t u : writes (t ++ u) = writes t ++ writes u.
Proof.
  induction t as [|e t IH]; [reflexivity|].
  destruct e; simpl; rewrite ?IH; reflexivity.
Qed.

Lemma timeline_app t u : timeline (t ++ u) = timeline t ++ timeline u.
Proof.
  induction t as [|e t IH]; [reflexivity|].
  destruct e; simpl; rewrite ?IH; reflexivity.
Qed.

Lemma dbg_timeline env msg : timeline (dbg env msg) = [].
Proof. unfold dbg. destruct (debug env); reflexivity. Qed.

Lemma debugPrint_run env msg m w :
  debugPrint env msg (m, w) = Done tt (m, set_trace (trace w ++ dbg env msg) w).
Proof.
  unfold debugPrint, dbg. destruct (debug env); simpl.
  - reflexivity.
  - unfold retM, set_trace. rewrite app_nil_r. destruct w; reflexivity.
Qed.

Lemma string_eqb_false (a b : string) : a <> b -> String.eqb a b = false.
Proof. intros H. apply String.eqb_neq. exact H. Qed.

Lemma HasPrefix_cons s p a :
  HasPrefix s (String a p) = true ->
  exists s', s = String a s' /\ HasPrefix s' p = true.
Proof.
  unfold HasPrefix. destruct s as [|b s']; cbn [String.prefix]; [discriminate|].
  destruct (ascii_dec a b) as [<-|]; [|discriminate]. eauto.
Qed.

(** A line that starts with CONNECTED is dispatched to [handleConnect]. *)
Lemma handleCmd_CONNECTED env line s :
  HasPrefix line "CONNECTED" = true ->
  handleCmd env line s =
  (debugPrint env ("got cmd: " +:+ line);; handleConnect;; retM true) s.
Proof.
  intros H. unfold handleCmd. rewrite H.
  apply HasPrefix_cons in H as (l & -> & _).
  unfold bindM. destruct (debugPrint env _ s) as [[] s'| |]; reflexivity.
Qed.

(** An unrecognized line is logged, and nothing else. *)
Lemma handleCmd_unrecognized_run env c m w :
  unrecognized c ->
  handleCmd env c (m, w) =
  Done true (m, set_trace (trace w ++ dbg env ("got cmd: " +:+ c) ++
                           [EvLog ("got a vara command I wasn't expecting: " +:+ c)]) w).
Proof.
  intros [Hex Hpre]. unfold handleCmd, bindM. rewrite debugPrint_run.
  assert (Hne : forall e, e ∈ exact_entries -> String.eqb c e = false).
  { intros e He. apply string_eqb_false. intros ->. exact (Hex He). }
  rewrite !Hne by (unfold exact_entries; set_solver).
  rewrite !Hpre by (unfold prefix_entries; set_solver).
  unfold log_Print, emit, upd_w, retM, set_trace. simpl.
  rewrite <- app_assoc. reflexivity.
Qed.

Lemma handleCmd_stops_only_on_DISCONNECTED env c s s' :
  handleCmd env c s = Done false s' -> c = "DISCONNECTED".
Proof.
  unfold handleCmd, bindM. destruct (debugPrint env _ s) as [[] s1| |]; try discriminate.
  repeat match goal with
  | |- context [if String.eqb c ?e then _ else _] =>
      destruct (String.eqb_spec c e) as [->|_]; [|]
  end;
  try reflexivity;
  repeat match goal with
  | |- context [match ?x with _ => _ end] => destruct x
  end; unfold retM; try discriminate; intros; try congruence.
Qed.

Lemma Split_line c rest sep :
  lacks sep c = true ->
  Split (c +:+ String sep rest) sep = c :: Split rest sep.
Proof.
  induction c as [|b c IH]; simpl; intros H.
  - rewrite Ascii.eqb_refl. reflexivity.
  - apply andb_true_iff in H as [Hb Hc].
    apply negb_true_iff in Hb. rewrite Hb, (IH Hc). reflexivity.
Qed.

Lemma handleConnect_lastState s :
  lastState (state_of (handleConnect s)).1 = connected.
Proof.
  destruct s as [m w]. unfold handleConnect, bindM, upd_m, get_m, chan_send. simpl.
  destruct (chans w !! connectChange m) as [[v|]|]; reflexivity.
Qed.

Lemma handleConnect_publish m w :
  slot m w = Some None ->
  handleConnect (m, w) =
  Done tt (set_lastState connected m,
           set_chans (<[connectChange m := Some connected]> (chans w)) w).
Proof.
  unfold slot. intros H.
  unfold handleConnect, bindM, upd_m, get_m, chan_send. simpl. rewrite H. reflexivity.
Qed.

Lemma slot_insert m w v cs :
  slot m w = Some cs ->
  slot m (set_chans (<[connectChange m := v]> (chans w)) w) = Some v.
Proof.
  unfold slot. simpl. intros H. apply list_lookup_insert_eq.
  apply lookup_lt_Some in H. exact H.
Qed.

(** C8. A line that matches no exact entry and no prefix of the dispatch
    table is logged and nothing else: [handleCmd] answers [true], the
    session, the sockets and the notification slot are as before, and the
    reader goes on with the next line and the next [Read].  A CONNECTED line
    after it sets the state to [connected] (and, with the slot free,
    publishes it).  [handleCmd] answers [false] on DISCONNECTED only. *)
Theorem unrecognized_line_keeps_reader env c m w :
  unrecognized c ->
  (exists w1, same_but_trace w w1 /\
     handleCmd env c (m, w) = Done true (m, w1) /\
     (forall rest, c <> "" ->
        handleCmds env (c :: rest) (m, w) = handleCmds env rest (m, w1)) /\
     (forall k reads, c <> "" -> lacks CR c = true ->
        cmdConn m = Some k -> sock_is_open w k ->
        cmdListen env (ReadData (cmd_line c) :: reads) (m, w) =
        cmdListen env reads (m, w1))) /\
  (forall line, HasPrefix line "CONNECTED" = true ->
     lastState (state_of (handleCmds env [c; line] (m, w))).1 = connected /\
     (slot m w = Some None ->
      exists w2, handleCmds env [c; line] (m, w) =
                 Done true (set_lastState connected m, w2) /\
                 slot m w2 = Some (Some connected))) /\
  (forall c' s s', handleCmd env c' s = Done false s' -> c' = "DISCONNECTED").
Proof.
  intros Hu. pose proof (handleCmd_unrecognized_run env c m w Hu) as Hrun.
  set (w1 := set_trace _ w) in Hrun.
  assert (Hcons : forall rest, c <> "" ->
            handleCmds env (c :: rest) (m, w) = handleCmds env rest (m, w1)).
  { intros rest Hne. simpl. rewrite (string_eqb_false _ _ Hne).
    unfold bindM at 1. rewrite Hrun. reflexivity. }
  split; [exists w1; repeat split; auto|split].
  - intros k reads Hne Hcr Hk Hopen.
    assert (Hsplit : Split (cmd_line c) CR = [c; ""]).
    { unfold cmd_line, CRs. rewrite Split_line by exact Hcr. reflexivity. }
    assert (Hopen1 : sock_open <$> socks w1 !! k = Some true) by exact Hopen.
    cbn [cmdListen]. unfold bindM at 1 2. unfold get_m, get_w. cbn [fst snd].
    rewrite Hk. change (socks (m, w).2) with (socks w).
    unfold sock_is_open in Hopen. rewrite Hopen. unfold bindM at 1. rewrite Hsplit, Hcons by exact Hne.
    cbn [handleCmds String.eqb]. unfold retM at 1.
    reflexivity.
  - intros line Hline.
    assert (Hone : forall w0, handleCmds env [line] (m, w0) =
              (debugPrint env ("got cmd: " +:+ line);; handleConnect;; retM true) (m, w0)).
    { intros w0. simpl. apply HasPrefix_cons in Hline as Hl. destruct Hl as (l & -> & _).
      cbn [String.eqb]. unfold bindM at 1. rewrite handleCmd_CONNECTED by exact Hline.
      unfold bindM. rewrite debugPrint_run.
      destruct (handleConnect _) as [[] s1| |]; reflexivity. }
    assert (Hboth : exists w0, same_but_trace w w0 /\
              handleCmds env [c; line] (m, w) = handleCmds env [line] (m, w0)).
    { destruct (String.eqb_spec c "") as [->|Hne].
      - exists w. split; [split; reflexivity|reflexivity].
      - exists w1. split; [split; reflexivity|]. apply Hcons, Hne. }
    destruct Hboth as (w0 & [Hs Hc] & ->). rewrite Hone.
    unfold bindM. rewrite debugPrint_run. split.
    + pose proof (handleConnect_lastState (m, set_trace (trace w0 ++ dbg env ("got cmd: " +:+ line)) w0)) as HL.
      destruct (handleConnect _) as [[] s1| |]; exact HL.
    + intros Hslot.
      assert (Hslot' : slot m (set_trace (trace w0 ++ dbg env ("got cmd: " +:+ line)) w0) = Some None).
      { unfold slot in *. simpl. rewrite Hc. exact Hslot. }
      rewrite (handleConnect_publish _ _ Hslot'). unfold retM.
      eexists. split; [reflexivity|]. eapply slot_insert. exact Hslot'.
  - intros c' s s'. apply handleCmd_stops_only_on_DISCONNECTED.
Qed.

(** ** Running the methods *)

Lemma env_reliable_writes env : env_reliable env -> writes_ok env.
Proof. intros (_ & _ & H). exact H. Qed.

Lemma conn_Write_ok env c b m w :
  writes_ok env -> sock_is_open w c ->
  conn_Write env c b (m, w) =
  Done (Ok tt) (m, set_trace (trace w ++ [EvWrite c b None]) w).
Proof.
  intros Hw Ho. unfold sock_is_open in Ho.
  unfold conn_Write, bindM, get_w, emit, upd_w, retM. cbn [fst snd].
  destruct (socks w !! c) as [sk|]; [|discriminate]. simpl in Ho.
  injection Ho as ->. rewrite Hw. reflexivity.
Qed.

Lemma writeCmd_ok env cmd m w c :
  writes_ok env -> cmdConn m = Some c -> sock_is_open w c ->
  writeCmd env cmd (m, w) =
  Done (Ok tt)
       (m, set_trace (trace w ++ dbg env ("writing cmd: " +:+ cmd) ++
                      [EvWrite c (cmd_line cmd) None]) w).
Proof.
  intros Hw Hc Ho. unfold writeCmd, bindM. rewrite debugPrint_run.
  unfold get_m. cbn [fst snd]. rewrite Hc.
  rewrite conn_Write_ok by assumption.
  unfold set_trace. cbn [trace socks chans]. rewrite <- app_assoc. reflexivity.
Qed.

Lemma disconnectTCP_run env name port m w :
  disconnectTCP env name port (m, w) = Done None (m, close_world env name port w).
Proof.
  destruct port as [c|]; [|reflexivity].
  unfold disconnectTCP, bindM, conn_Close, bindM, upd_w, emit, upd_w.
  cbn [fst snd]. rewrite debugPrint_run. unfold retM, close_world, close_events, set_trace.
  cbn [trace socks chans set_socks]. rewrite <- app_assoc. reflexivity.
Qed.

Lemma handleDisconnect_run env m w :
  slot m w = Some None ->
  handleDisconnect env (m, w) =
  Done tt (torn_down m,
           close_world env "command" (cmdConn m)
             (close_world env "data" (dataConn m)
                (set_chans (<[connectChange m := Some disconnected]> (chans w)) w))).
Proof.
  unfold slot. intros Hs.
  unfold handleDisconnect, bindM, upd_m, get_m, chan_send. cbn [fst snd].
  cbn [connectChange set_lastState]. rewrite Hs.
  cbn [dataConn set_lastState]. rewrite disconnectTCP_run.
  cbn [cmdConn set_dataConn]. rewrite disconnectTCP_run. reflexivity.
Qed.

(** With the slot full (or the channel nil) the teardown is suspended at the
    publish: the state is already [disconnected], nothing else is done. *)
Lemma handleDisconnect_blocked env m w :
  slot m w <> Some None ->
  handleDisconnect env (m, w) = Blocked (set_lastState disconnected m, w).
Proof.
  unfold slot. intros Hs.
  unfold handleDisconnect, bindM, upd_m, get_m, chan_send. cbn [fst snd].
  cbn [connectChange set_lastState].
  destruct (chans w !! connectChange m) as [[v|]|]; try reflexivity.
  contradiction.
Qed.

Lemma close_world_chans env name port w :
  chans (close_world env name port w) = chans w.
Proof. destruct port; reflexivity. Qed.

Lemma close_world_trace env name port w :
  trace (close_world env name port w) = trace w ++ close_events env name port.
Proof. destruct port; [reflexivity|]. simpl. symmetry. apply app_nil_r. Qed.

Lemma close_events_writes env name port : writes (close_events env name port) = [].
Proof.
  destruct port as [c|]; [|reflexivity]. unfold close_events.
  rewrite writes_app. cbn [writes]. apply dbg_no_write.
Qed.

Lemma close_events_timeline env name port :
  timeline (close_events env name port) = [].
Proof.
  destruct port as [c|]; [|reflexivity]. unfold close_events.
  rewrite timeline_app. cbn [timeline]. apply dbg_timeline.
Qed.

Lemma close_world_closed env name (c : TCPConn) w :
  (c < length (socks w))%nat ->
  sock_is_closed (close_world env name (Some c) w) c.
Proof.
  intros Hlt. unfold sock_is_closed. simpl.
  destruct (lookup_lt_is_Some_2 (socks w) c Hlt) as [sk Hsk].
  rewrite list_lookup_alter_eq, Hsk. reflexivity.
Qed.

Lemma close_world_closed_mono env name port c w :
  sock_is_closed w c -> sock_is_closed (close_world env name port w) c.
Proof.
  unfold sock_is_closed. destruct port as [k|]; [|auto]. simpl. intros H.
  destruct (decide (k = c)) as [->|Hne].
  - rewrite list_lookup_alter_eq. destruct (socks w !! c); [reflexivity|discriminate].
  - rewrite list_lookup_alter_ne by exact Hne. exact H.
Qed.

Lemma close_world_length env name port w :
  length (socks (close_world env name port w)) = length (socks w).
Proof. destruct port; [simpl; apply length_alter|reflexivity]. Qed.

Lemma sendPTT_run m w on :
  sendPTT on (m, w) = Done tt (m, set_trace (trace w ++ ptt_events m on) w).
Proof.
  unfold sendPTT, ptt_events, bindM, get_m, emit, upd_w, retM. cbn [fst snd].
  destruct (rig m); [reflexivity|].
  unfold set_trace. rewrite app_nil_r. destruct w; reflexivity.
Qed.

Lemma ptt_events_writes m on : writes (ptt_events m on) = [].
Proof. unfold ptt_events. destruct (rig m); reflexivity. Qed.

Lemma ptt_events_timeline m on : timeline (ptt_events m on) = [].
Proof. unfold ptt_events. destruct (rig m); reflexivity. Qed.

(** [Close] from [sendPTT] on, with the slot free. *)
Lemma Close_tail_run env m w :
  slot m w = Some None ->
  (sendPTT false;; handleDisconnect env;; retM (Ok tt)) (m, w) =
  Done (Ok tt)
    (torn_down m,
     close_world env "command" (cmdConn m)
       (close_world env "data" (dataConn m)
          (mkWorld (trace w ++ ptt_events m false) (socks w)
                   (<[connectChange m := Some disconnected]> (chans w))))).
Proof.
  intros Hs. unfold bindM. rewrite sendPTT_run.
  rewrite handleDisconnect_run by exact Hs. reflexivity.
Qed.

Lemma Close_tail_blocked env m w :
  slot m w <> Some None ->
  (sendPTT false;; handleDisconnect env;; retM (Ok tt)) (m, w) =
  Blocked (set_lastState disconnected m, set_trace (trace w ++ ptt_events m false) w).
Proof.
  intros Hs. unfold bindM. rewrite sendPTT_run.
  rewrite handleDisconnect_blocked by exact Hs. reflexivity.
Qed.

Lemma Close_disconnected env m w :
  lastState m = disconnected ->
  Close env (m, w) = (sendPTT false;; handleDisconnect env;; retM (Ok tt)) (m, w).
Proof.
  intros Hl. unfold Close, tryM. unfold bindM at 1 2. unfold get_m. cbn [fst snd].
  rewrite Hl. destruct (decide (disconnected = connected)); [discriminate|].
  reflexivity.
Qed.

Lemma slot_close_world env name port m w :
  slot m (close_world env name port w) = slot m w.
Proof. unfold slot. rewrite close_world_chans. reflexivity. Qed.

Lemma slot_published m w t ss v :
  slot m w = Some None ->
  slot m (mkWorld t ss (<[connectChange m := v]> (chans w))) = Some v.
Proof.
  unfold slot. simpl. intros H. apply list_lookup_insert_eq.
  apply lookup_lt_Some in H. exact H.
Qed.

(** C7 (as amended).  [Close] on a session whose state is [disconnected]:
    with the notification slot free it returns no error, writes no command,
    signals PTT off, closes and clears both handles and leaves the state
    [disconnected]; its teardown also publishes [disconnected] into the
    slot.  With the slot occupied it is suspended at that publish, so a
    second [Close] right after the first does not return. *)
Theorem Close_while_disconnected env m w :
  lastState m = disconnected ->
  (slot m w = Some None ->
   exists w',
     Close env (m, w) = Done (Ok tt) (torn_down m, w') /\
     trace w' = trace w ++ ptt_events m false
                        ++ close_events env "data" (dataConn m)
                        ++ close_events env "command" (cmdConn m) /\
     writes (trace w') = writes (trace w) /\
     lastState (torn_down m) = disconnected /\
     cmdConn (torn_down m) = None /\ dataConn (torn_down m) = None /\
     slot m w' = Some (Some disconnected) /\
     exists s'', Close env (torn_down m, w') = Blocked s'') /\
  (slot m w <> Some None ->
   Close env (m, w) =
   Blocked (m, set_trace (trace w ++ ptt_events m false) w)).
Proof.
  intros Hl. split.
  - intros Hs. rewrite Close_disconnected by exact Hl.
    rewrite Close_tail_run by exact Hs.
    eexists. split; [reflexivity|].
    assert (Ht : trace (close_world env "command" (cmdConn m)
                  (close_world env "data" (dataConn m)
                     (mkWorld (trace w ++ ptt_events m false) (socks w)
                        (<[connectChange m := Some disconnected]> (chans w)))))
                 = trace w ++ ptt_events m false
                        ++ close_events env "data" (dataConn m)
                        ++ close_events env "command" (cmdConn m)).
    { rewrite !close_world_trace. cbn [trace]. rewrite <- !app_assoc. reflexivity. }
    assert (Hslot : slot m (close_world env "command" (cmdConn m)
                  (close_world env "data" (dataConn m)
                     (mkWorld (trace w ++ ptt_events m false) (socks w)
                        (<[connectChange m := Some disconnected]> (chans w)))))
                 = Some (Some disconnected)).
    { rewrite !slot_close_world. apply slot_published, Hs. }
    repeat split; try reflexivity.
    + exact Ht.
    + rewrite Ht, !writes_app, ptt_events_writes, !close_events_writes.
      rewrite !app_nil_r. reflexivity.
    + exact Hslot.
    + eexists. rewrite Close_disconnected by reflexivity.
      apply Close_tail_blocked.
      change (slot (torn_down m)) with (slot m). rewrite Hslot. discriminate.
  - intros Hs. rewrite Close_disconnected by exact Hl.
    rewrite Close_tail_blocked by exact Hs.
    destruct m; simpl in Hl; subst; reflexivity.
Qed.

(** C4 (as amended).  A DISCONNECTED line processed while the notification
    slot is free, whatever the session state: the state becomes
    [disconnected], both handles are closed and cleared, the busy flag and
    the remote call sign are cleared, [disconnected] is published to the
    slot, no command is written, and the reader stops: the lines and reads
    after it are not processed.  While the slot is occupied the dispatch is
    suspended at the publish, with the state set and nothing else done. *)
Theorem DISCONNECTED_tears_down env m w :
  (slot m w = Some None ->
   exists m' w',
     handleCmd env "DISCONNECTED" (m, w) = Done false (m', w') /\
     lastState m' = disconnected /\
     cmdConn m' = None /\ dataConn m' = None /\
     busy m' = false /\ toCall m' = "" /\
     slot m w' = Some (Some disconnected) /\
     (forall c, cmdConn m = Some c \/ dataConn m = Some c ->
                (c < length (socks w))%nat -> sock_is_closed w' c) /\
     writes (trace w') = writes (trace w) /\
     (forall rest,
        handleCmds env ("DISCONNECTED" :: rest) (m, w) = Done false (m', w')) /\
     (forall k reads, cmdConn m = Some k -> sock_is_open w k ->
        cmdListen env (ReadData (cmd_line "DISCONNECTED") :: reads) (m, w) =
        Done ReaderReturned (m', w'))) /\
  (slot m w <> Some None ->
   handleCmd env "DISCONNECTED" (m, w) =
   Blocked (set_lastState disconnected m,
            set_trace (trace w ++ dbg env ("got cmd: " +:+ "DISCONNECTED")) w)).
Proof.
  split; [|intros Hs; unfold handleCmd, bindM; rewrite debugPrint_run;
           cbn [String.eqb Ascii.eqb Bool.eqb];
           rewrite handleDisconnect_blocked by exact Hs; reflexivity].
  intros Hs.
  set (w0 := set_trace (trace w ++ dbg env ("got cmd: " +:+ "DISCONNECTED")) w).
  assert (Hs0 : slot m w0 = Some None) by exact Hs.
  assert (Hrun : handleCmd env "DISCONNECTED" (m, w) =
                 Done false (torn_down m,
                   close_world env "command" (cmdConn m)
                     (close_world env "data" (dataConn m)
                        (set_chans (<[connectChange m := Some disconnected]> (chans w0)) w0)))).
  { unfold handleCmd, bindM. rewrite debugPrint_run. cbn [String.eqb Ascii.eqb Bool.eqb].
    fold w0. rewrite (handleDisconnect_run env m w0 Hs0). reflexivity. }
  eexists _, _. split; [exact Hrun|].
  repeat split; try reflexivity.
  - rewrite !slot_close_world. apply slot_published, Hs0.
  - intros c [Hc|Hc] Hlt; rewrite Hc.
    + apply close_world_closed. rewrite close_world_length. exact Hlt.
    + apply close_world_closed_mono, close_world_closed. exact Hlt.
  - rewrite !close_world_trace. cbn [trace set_chans w0 set_trace].
    rewrite !writes_app, dbg_no_write, !close_events_writes, !app_nil_r. reflexivity.
  - intros rest. cbn [handleCmds String.eqb Ascii.eqb Bool.eqb].
    unfold bindM at 1. rewrite Hrun. reflexivity.
  - intros k reads Hk Ho. cbn [cmdListen]. unfold bindM at 1 2. unfold get_m, get_w.
    cbn [fst snd]. rewrite Hk. change (socks (m, w).2) with (socks w).
    unfold sock_is_open in Ho. rewrite Ho.
    unfold bindM at 1.
    change (Split (cmd_line "DISCONNECTED") CR) with ["DISCONNECTED"; ""].
    cbn [handleCmds String.eqb Ascii.eqb Bool.eqb].
    unfold bindM at 1. rewrite Hrun, Hk. reflexivity.
Qed.

Lemma select_timeout m w d :
  slot m w = Some None ->
  select_recv_or_After (connectChange m) d (m, w) =
  Done None (m, set_trace (trace w ++ [EvAfter d]) w).
Proof.
  unfold slot, select_recv_or_After. cbn [fst snd]. intros ->. reflexivity.
Qed.

Lemma select_received m w d v :
  slot m w = Some (Some v) ->
  select_recv_or_After (connectChange m) d (m, w) =
  Done (Some v) (m, set_chans (<[connectChange m := None]> (chans w)) w).
Proof.
  unfold slot, select_recv_or_After. cbn [fst snd]. intros ->. reflexivity.
Qed.

Lemma Close_connected env m w c :
  writes_ok env -> lastState m = connected ->
  cmdConn m = Some c -> sock_is_open w c ->
  Close env (m, w) =
  (Close_select env ;;? sendPTT false;; handleDisconnect env;; retM (Ok tt))
    (m, set_trace (trace w ++ dbg env ("writing cmd: " +:+ "DISCONNECT") ++
                   [EvWrite c (cmd_line "DISCONNECT") None]) w).
Proof.
  intros Hw Hl Hc Ho. unfold Close. unfold tryM at 1 3. unfold bindM at 1 2.
  unfold get_m at 1. cbn [fst snd]. rewrite Hl.
  destruct (decide (connected = connected)) as [_|]; [|contradiction].
  rewrite Hc. unfold tryM at 1. unfold bindM at 1.
  rewrite (writeCmd_ok env "DISCONNECT" m w c Hw Hc Ho). reflexivity.
Qed.

Lemma teardown_world_trace env m t w :
  trace (teardown_world env m t w) =
  t ++ close_events env "data" (dataConn m) ++ close_events env "command" (cmdConn m).
Proof.
  unfold teardown_world. rewrite !close_world_trace. cbn [trace].
  rewrite <- app_assoc. reflexivity.
Qed.




(** [Close] in state [connected] when nothing arrives on the slot. *)
Lemma Close_timeout_run env m w c :
  writes_ok env -> lastState m = connected ->
  cmdConn m = Some c -> sock_is_open w c -> slot m w = Some None ->
  Close env (m, w) =
  Done (Ok tt)
    (torn_down m,
     teardown_world env m
       (trace w ++ cmd_events env c "DISCONNECT" ++ [EvAfter (time_Second * 10)] ++
        cmd_events env c "ABORT" ++ ptt_events m false) w).
Proof.
  intros Hw Hl Hc Ho Hs.
  rewrite (Close_connected env m w c Hw Hl Hc Ho).
  set (w1 := set_trace _ w).
  assert (Hs1 : slot m w1 = Some None) by exact Hs.
  unfold tryM, Close_select. unfold bindM at 1 2 3. unfold get_m at 1. cbn [fst snd].
  rewrite (select_timeout _ _ _ Hs1).
  set (w2 := set_trace _ w1).
  assert (Ho2 : sock_is_open w2 c) by exact Ho.
  rewrite (writeCmd_ok env "ABORT" m w2 c Hw Hc Ho2).
  set (w3 := set_trace _ w2).
  assert (Hs3 : slot m w3 = Some None) by exact Hs.
  rewrite (Close_tail_run env m w3 Hs3).
  unfold teardown_world, cmd_events. cbn [trace w3 w2 w1 set_trace socks chans].
  rewrite <- !app_assoc. reflexivity.
Qed.

(** [Close] in state [connected] when the slot holds a value that is not
    [disconnected]. *)
Lemma Close_unexpected_run env m w c res :
  writes_ok env -> lastState m = connected ->
  cmdConn m = Some c -> sock_is_open w c ->
  res <> disconnected -> slot m w = Some (Some res) ->
  Close env (m, w) =
  Done (Ok tt)
    (torn_down m,
     teardown_world env m
       (trace w ++ cmd_events env c "DISCONNECT" ++
        [EvLog "Disconnect failed, aborting!"] ++
        cmd_events env c "ABORT" ++ ptt_events m false)
       (set_chans (<[connectChange m := None]> (chans w)) w)).
Proof.
  intros Hw Hl Hc Ho Hres Hs.
  rewrite (Close_connected env m w c Hw Hl Hc Ho).
  set (w1 := set_trace _ w).
  assert (Hs1 : slot m w1 = Some (Some res)) by exact Hs.
  unfold tryM, Close_select. unfold bindM at 1 2 3. unfold get_m at 1. cbn [fst snd].
  rewrite (select_received _ _ _ _ Hs1).
  destruct (decide (res <> disconnected)) as [_|Hn]; [|contradiction].
  unfold bindM at 1. unfold log_Print, emit, upd_w. cbn [fst snd].
  set (w2 := set_trace _ (set_chans _ w1)).
  assert (Ho2 : sock_is_open w2 c) by exact Ho.
  rewrite (writeCmd_ok env "ABORT" m w2 c Hw Hc Ho2).
  set (w3 := set_trace _ w2).
  assert (Hs3 : slot m w3 = Some None).
  { unfold slot. simpl. apply list_lookup_insert_eq.
    unfold slot in Hs. apply lookup_lt_Some in Hs. exact Hs. }
  rewrite (Close_tail_run env m w3 Hs3).
  unfold teardown_world, cmd_events. cbn [trace w3 w2 w1 set_trace set_chans socks chans].
  rewrite <- !app_assoc. reflexivity.
Qed.

Lemma cmd_events_timeline env c cmd :
  timeline (cmd_events env c cmd) = [EvWrite c (cmd_line cmd) None].
Proof. unfold cmd_events. rewrite timeline_app, dbg_timeline. reflexivity. Qed.

(** C6.  [Close] in state [connected], on an open command channel whose
    writes succeed.  When nothing arrives on the notification slot, it
    writes DISCONNECT, the timer of [10 * time.Second] fires, and it writes
    ABORT, in that order.  When the slot resolves to a value other than
    [disconnected], it writes DISCONNECT and then ABORT as well.  In both
    cases it then tears the session down and returns no error. *)
Theorem Close_escalates_to_ABORT env m w c :
  writes_ok env -> lastState m = connected ->
  cmdConn m = Some c -> sock_is_open w c ->
  (slot m w = Some None ->
   exists w' t,
     Close env (m, w) = Done (Ok tt) (torn_down m, w') /\
     trace w' = trace w ++ t /\
     timeline t = [EvWrite c (cmd_line "DISCONNECT") None;
                   EvAfter (time_Second * 10);
                   EvWrite c (cmd_line "ABORT") None]) /\
  (forall res, res <> disconnected -> slot m w = Some (Some res) ->
   exists w' t,
     Close env (m, w) = Done (Ok tt) (torn_down m, w') /\
     trace w' = trace w ++ t /\
     timeline t = [EvWrite c (cmd_line "DISCONNECT") None;
                   EvWrite c (cmd_line "ABORT") None] /\
     EvLog "Disconnect failed, aborting!" ∈ t).
Proof.
  intros Hw Hl Hc Ho. split.
  - intros Hs. rewrite (Close_timeout_run env m w c Hw Hl Hc Ho Hs).
    eexists _, _. split; [reflexivity|]. split.
    + rewrite teardown_world_trace, <- !app_assoc. reflexivity.
    + rewrite !timeline_app, !cmd_events_timeline, ptt_events_timeline,
        !close_events_timeline. reflexivity.
  - intros res Hres Hs.
    rewrite (Close_unexpected_run env m w c res Hw Hl Hc Ho Hres Hs).
    eexists _, _. split; [reflexivity|]. split; [|split].
    + rewrite teardown_world_trace, <- !app_assoc. reflexivity.
    + rewrite !timeline_app, !cmd_events_timeline, ptt_events_timeline,
        !close_events_timeline. reflexivity.
    + set_solver.
Qed.

(** *** [start] on an idle session, in a reliable environment *)

Lemma cmd_events_writes env c cmd :
  writes (cmd_events env c cmd) = [(c, cmd_line cmd)].
Proof. unfold cmd_events. rewrite writes_app, dbg_no_write. reflexivity. Qed.

Lemma connect_events_writes env name addr c :
  writes (connect_events env name addr c) = [].
Proof. unfold connect_events. rewrite writes_app, dbg_no_write. reflexivity. Qed.

Lemma connectTCP_run env name port m w :
  env_reliable env ->
  connectTCP env name port (m, w) =
  Done (Ok (length (socks w)))
       (m, mkWorld (trace w ++ connect_events env name (tcp_addr m port) (length (socks w)))
                   (socks w ++ [mkSocket (tcp_addr m port) true])
                   (chans w)).
Proof.
  intros (Hr & Hd & _). unfold connectTCP, bindM. rewrite debugPrint_run.
  unfold get_m, net_ResolveTCPAddr, net_DialTCP, bindM, get_w, emit, upd_w, retM.
  cbn [fst snd set_trace trace socks chans set_socks]. rewrite Hr.
  cbn [fst snd set_trace trace socks chans set_socks]. rewrite Hd.
  cbn [fst snd set_trace trace socks chans set_socks].
  unfold connect_events, tcp_addr. rewrite <- !app_assoc. reflexivity.
Qed.

Lemma writeCmd_run env cmd m t ss cs c :
  writes_ok env -> cmdConn m = Some c -> sock_open <$> ss !! c = Some true ->
  writeCmd env cmd (m, mkWorld t ss cs) =
  Done (Ok tt) (m, mkWorld (t ++ cmd_events env c cmd) ss cs).
Proof.
  intros Hw Hc Ho.
  assert (Ho' : sock_is_open (mkWorld t ss cs) c) by exact Ho.
  rewrite (writeCmd_ok env cmd m _ c Hw Hc Ho'). reflexivity.
Qed.

Lemma start_socks_cmd m w :
  sock_open <$> start_socks m w !! length (socks w) = Some true.
Proof.
  unfold start_socks. rewrite <- app_assoc. simpl.
  rewrite list_lookup_middle by reflexivity. reflexivity.
Qed.

Lemma start_socks_data m w :
  sock_open <$> start_socks m w !! S (length (socks w)) = Some true.
Proof.
  unfold start_socks.
  rewrite list_lookup_middle; [reflexivity|].
  rewrite length_app. simpl. lia.
Qed.

Ltac norm :=
  cbn [fst snd set_trace set_socks set_chans trace socks chans
       scheme myCall config cmdConn dataConn toCall busy connectChange
       lastState rig set_cmdConn set_dataConn set_toCall set_busy
       set_lastState set_rig].

Lemma start_run env m w :
  env_reliable env -> cmdConn m = None -> dataConn m = None ->
  start env (m, w) =
  Done (Ok tt)
       (started m (length (socks w)),
        mkWorld (trace w ++ start_events env m (length (socks w)))
                (start_socks m w) (chans w)).
Proof.
  intros He Hc Hd. pose proof (env_reliable_writes env He) as Hw.
  set (n := length (socks w)).
  assert (Hcn : cmdConn (started m n) = Some n) by reflexivity.
  pose proof (start_socks_cmd m w) as Hon. fold n in Hon.
  unfold start. unfold tryM at 1. unfold bindM at 1 2. unfold get_m at 1.
  norm. rewrite Hc. unfold tryM at 1. unfold bindM at 1.
  rewrite (connectTCP_run env "command" _ m w He). fold n.
  unfold bindM at 1. unfold upd_m at 1. norm. unfold retM at 1.
  unfold bindM at 1 2. unfold get_m at 1. unfold emit, upd_w. norm.
  unfold tryM at 1. unfold bindM at 1 2. unfold get_m at 1. norm.
  rewrite Hd. unfold tryM at 1. unfold bindM at 1.
  rewrite (connectTCP_run env "data" _ _ _ He). norm.
  unfold bindM at 1. unfold upd_m at 1. norm.
  unfold retM at 1. unfold bindM at 1. unfold upd_m at 1. norm.
  replace (length (socks w ++ [mkSocket (tcp_addr m (CmdPort (config m))) true]))
    with (S n) by (rewrite length_app; simpl; unfold n; lia).
  change (tcp_addr (set_cmdConn (Some n) m)) with (tcp_addr m).
  fold (start_socks m w). fold (started m n).
  unfold tryM at 1. unfold bindM at 1.
  rewrite (writeCmd_run env _ _ _ _ _ n Hw Hcn Hon).
  unfold tryM at 1. unfold bindM at 1 2. unfold get_m at 1. cbn [fst snd].
  change (scheme (started m n)) with (scheme m).
  unfold start_events. fold n.
  destruct (String.eqb (scheme m) "varahf").
  - rewrite (writeCmd_run env _ _ _ _ _ n Hw Hcn Hon).
    unfold tryM at 1. unfold bindM at 1.
    rewrite (writeCmd_run env _ _ _ _ _ n Hw Hcn Hon).
    unfold tryM at 1. unfold bindM at 1 2. unfold get_m at 1. cbn [fst snd].
    rewrite (writeCmd_run env _ _ _ _ _ n Hw Hcn Hon).
    unfold retM. change (myCall (started m n)) with (myCall m).
    rewrite <- !app_assoc. reflexivity.
  - unfold retM at 1.
    unfold tryM at 1. unfold bindM at 1.
    rewrite (writeCmd_run env _ _ _ _ _ n Hw Hcn Hon).
    unfold tryM at 1. unfold bindM at 1 2. unfold get_m at 1. cbn [fst snd].
    rewrite (writeCmd_run env _ _ _ _ _ n Hw Hcn Hon).
    unfold retM. change (myCall (started m n)) with (myCall m).
    rewrite <- !app_assoc. reflexivity.
Qed.

Lemma Listen_run env m w :
  env_reliable env -> cmdConn m = None -> dataConn m = None ->
  Listen env (m, w) =
  Done (Ok tt)
       (started m (length (socks w)),
        mkWorld (trace w ++ start_events env m (length (socks w))
                         ++ cmd_events env (length (socks w)) "LISTEN ON")
                (start_socks m w) (chans w)).
Proof.
  intros He Hc Hd. unfold Listen. unfold tryM at 1. unfold bindM at 1.
  rewrite (start_run env m w He Hc Hd).
  unfold tryM at 1. unfold bindM at 1.
  rewrite (writeCmd_run env _ (started m (length (socks w))) _ _ _ (length (socks w))
             (env_reliable_writes env He) eq_refl (start_socks_cmd m w)).
  unfold retM. rewrite <- app_assoc. reflexivity.
Qed.

(** *** [DialURL] on an idle session, in a reliable environment *)

Lemma DialURL_request_run env url m w :
  env_reliable env -> cmdConn m = None -> dataConn m = None ->
  Scheme url = scheme m -> bw_accepted url ->
  DialURL_request env url (m, w) =
  Done (Ok tt)
       (set_toCall (Target url) (started m (length (socks w))),
        mkWorld (trace w ++ dial_events env m (length (socks w)) url)
                (start_socks m w) (chans w)).
Proof.
  intros He Hc Hd Hsch Hbw. pose proof (env_reliable_writes env He) as Hw.
  set (n := length (socks w)).
  assert (Hcn : cmdConn (started m n) = Some n) by reflexivity.
  pose proof (start_socks_cmd m w) as Hon. fold n in Hon.
  unfold DialURL_request. unfold bindM at 1. unfold get_m at 1. norm.
  rewrite Hsch, String.eqb_refl. cbn [negb].
  unfold tryM at 1. unfold bindM at 1. rewrite (start_run env m w He Hc Hd). fold n.
  unfold dial_events, bw_events, session_events.
  unfold tryM at 1. unfold bindM at 1. unfold setBandwidth.
  assert (Hset : forall t,
    (if String.eqb (Values_Get (Params url) "bw") ""
     then retM (Ok tt)
     else if negb (contains bandwidths (Values_Get (Params url) "bw"))
          then retM (Err (errors_New ("bandwidth " +:+ Values_Get (Params url) "bw"
                                        +:+ " not supported")))
          else writeCmd env ("BW" +:+ Values_Get (Params url) "bw"))
      (started m n, mkWorld t (start_socks m w) (chans w)) =
    Done (Ok tt)
      (started m n,
       mkWorld (t ++ (if String.eqb (Values_Get (Params url) "bw") "" then []
                      else cmd_events env n ("BW" +:+ Values_Get (Params url) "bw")))
               (start_socks m w) (chans w))).
  { intros t. destruct (String.eqb (Values_Get (Params url) "bw") "") eqn:E.
    - unfold retM. rewrite app_nil_r. reflexivity.
    - destruct Hbw as [Hb|Hb]; [rewrite Hb in E; discriminate|].
      rewrite Hb. cbn [negb].
      apply (writeCmd_run env _ _ _ _ _ n Hw Hcn Hon). }
  rewrite Hset.
  unfold tryM at 1. unfold bindM at 1 2. unfold get_m at 1. norm.
  change (scheme (started m n)) with (scheme m).
  destruct (String.eqb (scheme m) "varahf").
  - destruct (String.eqb (Values_Get (Params url) "p2p") "true");
      rewrite (writeCmd_run env _ _ _ _ _ n Hw Hcn Hon);
      unfold bindM at 1; unfold upd_m at 1; norm;
      unfold tryM at 1; unfold bindM at 1 2; unfold get_m at 1; norm;
      (rewrite (writeCmd_run env _ (set_toCall (Target url) (started m n)) _ _ _ n Hw eq_refl Hon));
      unfold retM; rewrite <- !app_assoc; reflexivity.
  - unfold retM at 1.
    unfold bindM at 1; unfold upd_m at 1; norm;
      unfold tryM at 1; unfold bindM at 1 2; unfold get_m at 1; norm;
      (rewrite (writeCmd_run env _ (set_toCall (Target url) (started m n)) _ _ _ n Hw eq_refl Hon));
      unfold retM; rewrite <- !app_assoc; reflexivity.
Qed.

(** After the CONNECT command [DialURL] does what [Accept] does. *)
Lemma DialURL_request_then_Accept env url :
  DialURL env url = (DialURL_request env url ;;? Accept).
Proof. reflexivity. Qed.

Lemma Accept_connected m w d :
  slot m w = Some (Some connected) -> dataConn m = Some d ->
  Accept (m, w) =
  Done (Ok (mkDataConn d m))
       (m, set_chans (<[connectChange m := None]> (chans w)) w).
Proof.
  unfold slot. intros Hs Hd.
  unfold Accept, bindM, get_m, chan_recv. cbn [fst snd]. rewrite Hs.
  destruct (decide (connected <> connected)) as [Hn|_]; [contradiction|].
  cbn [fst snd]. rewrite Hd. reflexivity.
Qed.

Lemma Accept_blocked m w :
  slot m w = Some None -> Accept (m, w) = Blocked (m, w).
Proof.
  unfold slot. intros Hs.
  unfold Accept, bindM, get_m, chan_recv. cbn [fst snd]. rewrite Hs. reflexivity.
Qed.

Lemma handleCmd_CONNECTED_run env line m w :
  HasPrefix line "CONNECTED" = true -> slot m w = Some None ->
  handleCmd env line (m, w) =
  Done true (set_lastState connected m,
             mkWorld (trace w ++ dbg env ("got cmd: " +:+ line)) (socks w)
                     (<[connectChange m := Some connected]> (chans w))).
Proof.
  intros Hl Hs. rewrite (handleCmd_CONNECTED env line _ Hl).
  unfold bindM. rewrite debugPrint_run.
  assert (Hs' : slot m (set_trace (trace w ++ dbg env ("got cmd: " +:+ line)) w)
                = Some None) by exact Hs.
  rewrite (handleConnect_publish _ _ Hs'). reflexivity.
Qed.

(** The Event Reader on one read that holds one line: when [handleCmd]
    answers [true] the loop goes on to the next [Read]. *)
Lemma cmdListen_one_line env c reads m w k s' :
  c <> "" -> lacks CR c = true ->
  cmdConn m = Some k -> sock_is_open w k ->
  handleCmd env c (m, w) = Done true s' ->
  cmdListen env (ReadData (cmd_line c) :: reads) (m, w) = cmdListen env reads s'.
Proof.
  intros Hne Hcr Hk Ho Hrun.
  assert (Hsplit : Split (cmd_line c) CR = [c; ""]).
  { unfold cmd_line, CRs. rewrite Split_line by exact Hcr. reflexivity. }
  cbn [cmdListen]. unfold bindM at 1 2. unfold get_m, get_w. cbn [fst snd].
  rewrite Hk. change (socks (m, w).2) with (socks w).
  unfold sock_is_open in Ho. rewrite Ho. unfold bindM at 1. rewrite Hsplit.
  cbn [handleCmds]. rewrite (string_eqb_false _ _ Hne).
  unfold bindM at 1. rewrite Hrun. reflexivity.
Qed.

Lemma cmdListen_waits env m w k :
  cmdConn m = Some k -> sock_is_open w k ->
  cmdListen env [] (m, w) = Done ReaderInRead (m, w).
Proof.
  intros Hk Ho. cbn [cmdListen]. unfold bindM, get_m, get_w. cbn [fst snd].
  rewrite Hk. change (socks (m, w).2) with (socks w).
  unfold sock_is_open in Ho. rewrite Ho. reflexivity.
Qed.

(** ** The scenarios of the specification *)

(** *** The receive of [Accept] and [DialURL] *)

(** From the receive on, [DialURL] has the statements of [Accept]. *)
Lemma DialURL_wait_Accept : DialURL_wait = Accept.
Proof. reflexivity. Qed.

(** The receive finds a value other than [connected]: the data handle is
    cleared, the socket is not closed. *)
Lemma Accept_failed m w res :
  slot m w = Some (Some res) -> res <> connected ->
  Accept (m, w) =
  Done (Err (errors_New "connection failed"))
       (set_dataConn None m, set_chans (<[connectChange m := None]> (chans w)) w).
Proof.
  unfold slot. intros Hs Hn.
  unfold Accept, bindM, get_m, chan_recv. cbn [fst snd]. rewrite Hs.
  destruct (decide (res <> connected)) as [_|Hc]; [|contradiction].
  reflexivity.
Qed.


Lemma resumed_after_not_suspended {A B} (reader : M B) (k : M A) s :
  (forall s', k s <> Blocked s') -> resumed_after reader k s = k s.
Proof.
  unfold resumed_after. intros H. destruct (k s) eqn:E; try reflexivity.
  exfalso. eapply H. reflexivity.
Qed.

(** With nothing to read, the Event Reader changes nothing. *)
Lemma cmdListen_nil env s : exists r, cmdListen env [] s = Done r s.
Proof.
  destruct s as [m w]. cbn [cmdListen]. unfold bindM, get_m, get_w, retM. cbn [fst snd].
  repeat case_match; eauto.
Qed.

Lemma Accept_blocked_inv s s' : Accept s = Blocked s' -> s' = s.
Proof.
  destruct s as [m w]. unfold Accept, bindM, get_m, chan_recv. cbn [fst snd].
  destruct (chans w !! connectChange m) as [[res|]|].
  - destruct (decide (res <> connected)); [discriminate|].
    cbn [fst snd]. destruct (dataConn m); discriminate.
  - intros H. injection H as <-. reflexivity.
  - intros H. injection H as <-. reflexivity.
Qed.

(** A call that is given nothing to read stays suspended: scheduled with an
    Event Reader that reads nothing, [DialURL] is [DialURL]. *)
Lemma DialURL_with_nil env url s : DialURL_with env url [] s = DialURL env url s.
Proof.
  unfold DialURL_with, DialURL, tryM, bindM.
  destruct (DialURL_request env url s) as [[[]|e] s0| |]; try reflexivity.
  unfold resumed_after. rewrite DialURL_wait_Accept.
  destruct (Accept s0) as [r s1|s1|s1] eqn:E; try reflexivity.
  apply Accept_blocked_inv in E as E'. subst s1.
  unfold bindM. destruct (cmdListen_nil env s0) as [r ->]. exact E.
Qed.

(** C5 (as amended).  Dial of N0CALL with bandwidth 2300 on the varahf
    scheme, not peer-to-peer, on a session without channel handles (a new
    one, or one torn down), in a reliable environment.  The commands written
    up to the receive, all on the command channel and in this order, are
    PUBLIC ON, CWID ON, COMPRESSION TEXT, MYCALL me, BW2300, WINLINK SESSION,
    CONNECT me N0CALL.  With the notification slot empty, the call is
    suspended at its receive; with the line CONNECTED N0CALL read by the
    Event Reader while it is suspended, [DialURL] returns the facade: the
    state is [connected], the remote call sign of the session and the remote
    address of the facade are N0CALL, the data socket is open, and no further
    command was written.  With [disconnected] still in the slot, as a
    [Close] leaves it, [DialURL] does not wait for the line: after the seven
    commands it returns the error "connection failed", whatever the Event
    Reader is given to read, with the data handle cleared and both sockets
    left open. *)
Theorem dial_N0CALL_2300_hf env url m w :
  env_reliable env -> cmdConn m = None -> dataConn m = None ->
  scheme m = "varahf" -> Scheme url = "varahf" -> Target url = "N0CALL" ->
  Values_Get (Params url) "bw" = "2300" ->
  Values_Get (Params url) "p2p" <> "true" ->
  exists m1 w1 t,
    DialURL_request env url (m, w) = Done (Ok tt) (m1, w1) /\
    trace w1 = trace w ++ t /\
    writes t = map (fun cmd => (length (socks w), cmd_line cmd))
                   ["PUBLIC ON"; "CWID ON"; "COMPRESSION TEXT";
                    "MYCALL " +:+ myCall m; "BW2300"; "WINLINK SESSION";
                    "CONNECT " +:+ myCall m +:+ " N0CALL"] /\
    cmdConn m1 = Some (length (socks w)) /\
    (slot m w = Some None ->
     DialURL env url (m, w) = Blocked (m1, w1) /\
     exists m2 w2 v,
       DialURL_with env url [ReadData (cmd_line "CONNECTED N0CALL")] (m, w) =
         Done (Ok v) (m2, w2) /\
       lastState m2 = connected /\ toCall m2 = "N0CALL" /\
       modem v = m2 /\ RemoteAddr v = mkAddr "N0CALL" "varahf" /\
       dataConn m2 = Some (conn_TCPConn v) /\
       sock_is_open w2 (conn_TCPConn v) /\
       writes (trace w2) = writes (trace w1)) /\
    (slot m w = Some (Some disconnected) ->
     exists w2,
       DialURL env url (m, w) =
         Done (Err (errors_New "connection failed")) (set_dataConn None m1, w2) /\
       (forall reads, DialURL_with env url reads (m, w) = DialURL env url (m, w)) /\
       trace w2 = trace w1 /\
       sock_is_open w2 (length (socks w)) /\
       sock_is_open w2 (S (length (socks w)))).
Proof.
  intros He Hc Hd Hsch Hurl Htgt Hbw Hp2p.
  assert (Hacc : bw_accepted url) by (right; rewrite Hbw; reflexivity).
  assert (Hsu : Scheme url = scheme m) by congruence.
  pose proof (DialURL_request_run env url m w He Hc Hd Hsu Hacc) as Hreq.
  set (n := length (socks w)) in *.
  set (m1 := set_toCall (Target url) (started m n)) in *.
  set (w1 := mkWorld (trace w ++ dial_events env m n url) (start_socks m w) (chans w)) in *.
  exists m1, w1, (dial_events env m n url).
  split; [exact Hreq|]. split; [reflexivity|]. split.
  { unfold dial_events, start_events, bw_events, session_events.
    rewrite Hsch, Hbw, Htgt. rewrite (string_eqb_false _ _ Hp2p).
    cbn [String.eqb Ascii.eqb Bool.eqb].
    rewrite !writes_app, !cmd_events_writes, !connect_events_writes. reflexivity. }
  split; [reflexivity|]. split.
  - intros Hs. assert (Hs1 : slot m1 w1 = Some None) by exact Hs.
    pose proof (Accept_blocked m1 w1 Hs1) as Hblk.
    split.
    { unfold DialURL, tryM, bindM. rewrite Hreq, DialURL_wait_Accept. exact Hblk. }
    pose proof (handleCmd_CONNECTED_run env "CONNECTED N0CALL" m1 w1 eq_refl Hs1) as Hev.
    set (w2 := mkWorld (trace w1 ++ dbg env ("got cmd: " +:+ "CONNECTED N0CALL"))
                       (socks w1)
                       (<[connectChange m1 := Some connected]> (chans w1))) in *.
    assert (Hrd : cmdListen env [ReadData (cmd_line "CONNECTED N0CALL")] (m1, w1) =
                  Done ReaderInRead (set_lastState connected m1, w2)).
    { rewrite (cmdListen_one_line env "CONNECTED N0CALL" [] m1 w1 n _
                 ltac:(discriminate) eq_refl eq_refl (start_socks_cmd m w) Hev).
      apply (cmdListen_waits env _ _ n); [reflexivity|apply start_socks_cmd]. }
    assert (Hpub : slot (set_lastState connected m1) w2 = Some (Some connected)).
    { apply (slot_published m1). exact Hs1. }
    pose proof (Accept_connected _ _ (S n) Hpub eq_refl) as Hacq.
    eexists _, _, _. split.
    { unfold DialURL_with, tryM, bindM. rewrite Hreq. unfold resumed_after.
      rewrite DialURL_wait_Accept, Hblk. unfold bindM. rewrite Hrd. exact Hacq. }
    split; [reflexivity|]. split; [exact Htgt|]. split; [reflexivity|]. split.
    { unfold RemoteAddr, m1. cbn. rewrite Htgt, Hsch. reflexivity. }
    split; [reflexivity|]. split; [apply start_socks_data|].
    cbn [trace set_chans w2]. rewrite writes_app, dbg_no_write, app_nil_r. reflexivity.
  - intros Hs. assert (Hs1 : slot m1 w1 = Some (Some disconnected)) by exact Hs.
    pose proof (Accept_failed m1 w1 disconnected Hs1 ltac:(discriminate)) as Hf.
    assert (HD : DialURL env url (m, w) =
                 Done (Err (errors_New "connection failed"))
                   (set_dataConn None m1,
                    set_chans (<[connectChange m1 := None]> (chans w1)) w1)).
    { unfold DialURL, tryM, bindM. rewrite Hreq, DialURL_wait_Accept. exact Hf. }
    eexists. split; [exact HD|]. split.
    { intros reads. rewrite HD. unfold DialURL_with, tryM, bindM. rewrite Hreq.
      rewrite resumed_after_not_suspended; rewrite DialURL_wait_Accept, Hf;
        [reflexivity|discriminate]. }
    split; [reflexivity|]. split; [apply start_socks_cmd|apply start_socks_data].
Qed.

(** C2 (as amended).  Listen on an idle session in a reliable environment,
    then a CONNECTED line before any [Accept]: [Accept] returns at once, the
    slot having kept the value, with a facade on the data channel and in
    state [connected].  The remote address of the facade carries the remote
    call sign stored in the session, which neither [Listen] nor the
    CONNECTED line sets: it is the one the session had before, not the one
    of the line. *)
Theorem accept_after_early_CONNECTED env m w line :
  env_reliable env -> idle (m, w) -> HasPrefix line "CONNECTED" = true ->
  exists s1 s2 v s3,
    Listen env (m, w) = Done (Ok tt) s1 /\
    handleCmd env line s1 = Done true s2 /\
    slot s2.1 s2.2 = Some (Some connected) /\
    Accept s2 = Done (Ok v) s3 /\
    lastState (modem v) = connected /\
    dataConn s3.1 = Some (conn_TCPConn v) /\
    sock_is_open s3.2 (conn_TCPConn v) /\
    RemoteAddr v = mkAddr (toCall m) (scheme m).
Proof.
  intros He (Hc & Hd & Hs) Hl. cbn [fst snd] in Hc, Hd, Hs.
  pose proof (Listen_run env m w He Hc Hd) as HL.
  set (n := length (socks w)) in *.
  set (w1 := mkWorld _ (start_socks m w) (chans w)) in HL.
  assert (Hs1 : slot (started m n) w1 = Some None) by exact Hs.
  pose proof (handleCmd_CONNECTED_run env line _ _ Hl Hs1) as Hev.
  eexists _, _, _, _. split; [exact HL|]. split; [exact Hev|].
  assert (Hpub : slot (set_lastState connected (started m n))
                   (mkWorld (trace w1 ++ dbg env ("got cmd: " +:+ line)) (socks w1)
                      (<[connectChange (started m n) := Some connected]> (chans w1)))
                 = Some (Some connected)).
  { apply (slot_published (started m n)). exact Hs1. }
  split; [exact Hpub|]. split.
  { apply (Accept_connected _ _ (S n)); [exact Hpub|reflexivity]. }
  split; [reflexivity|]. split; [reflexivity|]. split; [|reflexivity].
  apply start_socks_data.
Qed.

(** C9.  A dial whose URL scheme is not the scheme of the session fails
    with [ErrUnsupportedScheme] at once: the session and the world, trace
    included, are as before. *)
Theorem DialURL_unsupported_scheme env url m w :
  Scheme url <> scheme m ->
  DialURL env url (m, w) = Done (Err ErrUnsupportedScheme) (m, w) /\
  DialURL_request env url (m, w) = Done (Err ErrUnsupportedScheme) (m, w).
Proof.
  intros Hne.
  assert (H : DialURL_request env url (m, w) = Done (Err ErrUnsupportedScheme) (m, w)).
  { unfold DialURL_request, bindM, get_m. cbn [fst snd].
    rewrite (string_eqb_false _ _ Hne). reflexivity. }
  split; [|exact H].
  rewrite DialURL_request_then_Accept. unfold tryM, bindM. rewrite H. reflexivity.
Qed.

(** ** Closing a facade *)

Lemma Accept_Ok_inv m w v s1 :
  Accept (m, w) = Done (Ok v) s1 ->
  slot m w = Some (Some connected) /\
  exists d, dataConn m = Some d /\ v = mkDataConn d m /\
            s1 = (m, set_chans (<[connectChange m := None]> (chans w)) w).
Proof.
  unfold slot, Accept, bindM, get_m, chan_recv. cbn [fst snd].
  destruct (chans w !! connectChange m) as [[res|]|]; try discriminate.
  destruct (decide (res <> connected)) as [Hn|Heq].
  - unfold upd_m, retM. discriminate.
  - assert (res = connected) as -> by (destruct res; [reflexivity|exfalso; apply Heq; discriminate]).
    cbn [fst snd]. destruct (dataConn m) as [d|] eqn:Hd; [|discriminate].
    unfold retM. intros H. injection H as <- <-. eauto.
Qed.

(** *** Pointers *)










(** *** Writing on a closed socket *)



(** [Mem.conn_Close] runs [varaDataConn_Close] on the struct at [j]. *)
Lemma conn_Close_varaDataConn_Close env j mem v :
  conns mem !! j = Some v ->
  let o := varaDataConn_Close env v (mem_world mem) in
  (Mem.conn_Close env j mem).1 = returned o /\
  mem_world (Mem.conn_Close env j mem).2 = (state_of o).2 /\
  conns (Mem.conn_Close env j mem).2 !! j =
    Some (mkDataConn (conn_TCPConn v) (state_of o).1).
Proof.
  intros Hj o. unfold Mem.conn_Close, call. cbn [load]. rewrite Hj. cbn [fmap option_fmap option_map].
  cbv zeta. cbn [fst snd store conns mem_world modems].
  fold (varaDataConn_Close env v (mem_world mem)). fold o.
  split; [reflexivity|]. split; [reflexivity|].
  rewrite list_lookup_alter_eq, Hj. reflexivity.
Qed.




(** ** Properties that every step of a computation keeps *)

#[global] Instance R_emits_preorder P : PreOrder (R_emits P).
Proof.
  split.
  - intros s. exists []. split; [symmetry; apply app_nil_r|constructor].
  - intros a b c (t1 & H1 & F1) (t2 & H2 & F2). exists (t1 ++ t2). split.
    + rewrite H2, H1, app_assoc. reflexivity.
    + apply Forall_app. split; assumption.
Qed.

#[global] Instance R_inv_preorder I : PreOrder (R_inv I).
Proof. split; unfold R_inv; [intros s; auto|intros a b c; auto]. Qed.

Section Respects.

Context (R : relation State) `{!PreOrder R}.

Lemma respects_ret {A} (a : A) : respects R (retM a).
Proof. intros s. simpl. reflexivity. Qed.

Lemma respects_panic {A} : respects R (@panic A).
Proof. intros s. simpl. reflexivity. Qed.

Lemma respects_get_m : respects R get_m.
Proof. intros s. simpl. reflexivity. Qed.

Lemma respects_get_w : respects R get_w.
Proof. intros s. simpl. reflexivity. Qed.

Lemma respects_bind {A B} (c : M A) (f : A -> M B) :
  respects R c -> (forall a, respects R (f a)) -> respects R (bindM c f).
Proof.
  intros Hc Hf s. unfold bindM. specialize (Hc s).
  destruct (c s) as [a s'| |]; simpl in *; try exact Hc.
  etransitivity; [exact Hc|apply Hf].
Qed.

Lemma respects_try {A B} (c : M (result A)) (k : A -> M (result B)) :
  respects R c -> (forall a, respects R (k a)) -> respects R (tryM c k).
Proof.
  intros Hc Hk. unfold tryM. apply respects_bind; [exact Hc|].
  intros [a|e]; [apply Hk|apply respects_ret].
Qed.

Lemma respects_upd_m (g : Modem -> Modem) :
  (forall m w, R (m, w) (g m, w)) -> respects R (upd_m g).
Proof. intros H [m w]. apply H. Qed.

Lemma respects_upd_w (g : World -> World) :
  (forall m w, R (m, w) (m, g w)) -> respects R (upd_w g).
Proof. intros H [m w]. apply H. Qed.

Lemma respects_chan_send ch v :
  (forall m w, R (m, w) (m, set_chans (<[ch := Some v]> (chans w)) w)) ->
  respects R (chan_send ch v).
Proof.
  intros H [m w]. unfold chan_send. cbn [fst snd].
  destruct (chans w !! ch) as [[x|]|]; simpl; try reflexivity. apply H.
Qed.

Lemma respects_chan_recv ch :
  (forall m w, R (m, w) (m, set_chans (<[ch := None]> (chans w)) w)) ->
  respects R (chan_recv ch).
Proof.
  intros H [m w]. unfold chan_recv. cbn [fst snd].
  destruct (chans w !! ch) as [[x|]|]; simpl; try reflexivity. apply H.
Qed.

Lemma respects_select ch d :
  (forall m w, R (m, w) (m, set_chans (<[ch := None]> (chans w)) w)) ->
  (forall m w, R (m, w) (m, set_trace (trace w ++ [EvAfter d]) w)) ->
  respects R (select_recv_or_After ch d).
Proof.
  intros H1 H2 [m w]. unfold select_recv_or_After. cbn [fst snd].
  destruct (chans w !! ch) as [[x|]|]; simpl; first [apply H1|apply H2].
Qed.

End Respects.

(** The structure of a computation, for any relation. *)
Ltac respects_step :=
  lazymatch goal with
  | |- PreOrder _ => exact _
  | |- forall _, _ => intro
  | |- respects _ (bindM _ _) => apply respects_bind
  | |- respects _ (tryM _ _) => apply respects_try
  | |- respects _ (retM _) => apply respects_ret
  | |- respects _ panic => apply respects_panic
  | |- respects _ get_m => apply respects_get_m
  | |- respects _ get_w => apply respects_get_w
  | |- respects _ (let _ := _ in _) => cbv zeta
  | |- respects _ (match ?x with _ => _ end) => destruct x
  | |- respects _ (emit _) => unfold emit
  | |- respects _ (log_Print _) => unfold log_Print
  | |- respects _ (debugPrint _ _) => unfold debugPrint
  | |- respects _ (net_ResolveTCPAddr _ _) => unfold net_ResolveTCPAddr
  | |- respects _ (net_DialTCP _ _) => unfold net_DialTCP
  | |- respects _ (conn_Write _ _ _) => unfold conn_Write
  | |- respects _ (conn_Close _) => unfold conn_Close
  | |- respects _ (connectTCP _ _ _) => unfold connectTCP
  | |- respects _ (disconnectTCP _ _ _) => unfold disconnectTCP
  | |- respects _ (writeCmd _ _) => unfold writeCmd
  | |- respects _ (sendPTT _) => unfold sendPTT
  | |- respects _ (setBandwidth _ _) => unfold setBandwidth
  | |- respects _ (handleConnect) => unfold handleConnect
  | |- respects _ (Close_select _) => unfold Close_select
  | |- respects _ (SetPTT _) => unfold SetPTT
  | |- respects _ (upd_m _) => apply respects_upd_m
  | |- respects _ (upd_w _) => apply respects_upd_w
  | |- respects _ (chan_send _ _) => apply respects_chan_send
  | |- respects _ (chan_recv _) => apply respects_chan_recv
  | |- respects _ (select_recv_or_After _ _) => apply respects_select
  end.

(** ** Computations that return and leave the session struct alone *)

Lemma returns_at_ret m {A} (a : A) : returns_at m (retM a).
Proof. intros w. exists a, w. reflexivity. Qed.

Lemma returns_at_bind m {A B} (c : M A) (f : A -> M B) :
  returns_at m c -> (forall a, returns_at m (f a)) -> returns_at m (bindM c f).
Proof.
  intros Hc Hf w. destruct (Hc w) as (a & w1 & E).
  destruct (Hf a w1) as (b & w2 & E2).
  exists b, w2. unfold bindM. rewrite E. exact E2.
Qed.

Lemma returns_at_try m {A B} (c : M (result A)) (k : A -> M (result B)) :
  returns_at m c -> (forall a, returns_at m (k a)) -> returns_at m (tryM c k).
Proof.
  intros Hc Hk. unfold tryM. apply returns_at_bind; [exact Hc|].
  intros [a|e]; [apply Hk|apply returns_at_ret].
Qed.

Lemma returns_at_get_m m : returns_at m get_m.
Proof. intros w. exists m, w. reflexivity. Qed.

Lemma returns_at_get_w m : returns_at m get_w.
Proof. intros w. exists w, w. reflexivity. Qed.

Lemma returns_at_upd_w m g : returns_at m (upd_w g).
Proof. intros w. exists tt, (g w). reflexivity. Qed.

Ltac returns_step :=
  lazymatch goal with
  | |- forall _, _ => intro
  | |- returns_at _ (bindM _ _) => apply returns_at_bind
  | |- returns_at _ (tryM _ _) => apply returns_at_try
  | |- returns_at _ (retM _) => apply returns_at_ret
  | |- returns_at _ get_m => apply returns_at_get_m
  | |- returns_at _ get_w => apply returns_at_get_w
  | |- returns_at _ (upd_w _) => apply returns_at_upd_w
  | |- returns_at _ (emit _) => unfold emit
  | |- returns_at _ (log_Print _) => unfold log_Print
  | |- returns_at _ (debugPrint _ _) => unfold debugPrint
  | |- returns_at _ (net_ResolveTCPAddr _ _) => unfold net_ResolveTCPAddr
  | |- returns_at _ (net_DialTCP _ _) => unfold net_DialTCP
  | |- returns_at _ (conn_Write _ _ _) => unfold conn_Write
  | |- returns_at _ (conn_Close _) => unfold conn_Close
  | |- returns_at _ (connectTCP _ _ _) => unfold connectTCP
  | |- returns_at _ (disconnectTCP _ _ _) => unfold disconnectTCP
  | |- returns_at _ (sendPTT _) => unfold sendPTT
  | |- returns_at _ (let _ := _ in _) => cbv zeta
  | |- returns_at _ (match ?x with _ => _ end) => destruct x
  end.

Lemma connectTCP_returns env name port m : returns_at m (connectTCP env name port).
Proof. repeat returns_step. Qed.

Lemma writeCmd_returns env cmd m c :
  cmdConn m = Some c -> returns_at m (writeCmd env cmd).
Proof.
  intros Hc. unfold writeCmd. apply returns_at_bind; [repeat returns_step|].
  intros _ w. unfold bindM at 1. unfold get_m. cbn [fst snd]. rewrite Hc.
  assert (H : returns_at m (conn_Write env c (cmd +:+ CRs))) by repeat returns_step.
  apply H.
Qed.

(** [start] always returns; it keeps [data_needs_cmd]; when it returns no
    error both channels are there. *)
Lemma start_cases env m w :
  exists r m' w',
    start env (m, w) = Done r (m', w') /\
    (data_needs_cmd m -> data_needs_cmd m') /\
    (r = Ok tt -> is_Some (cmdConn m') /\ is_Some (dataConn m')) /\
    toCall m' = toCall m /\ scheme m' = scheme m /\ myCall m' = myCall m /\
    connectChange m' = connectChange m /\ lastState m' = lastState m /\
    rig m' = rig m.
Proof.
  (* the commands, once both channels are there *)
  assert (Htail : forall m3 c, cmdConn m3 = Some c ->
    returns_at m3
      (writeCmd env "PUBLIC ON" ;;?
       (m ← get_m;
        if String.eqb (scheme m) "varahf" then writeCmd env "CWID ON"
        else retM (Ok tt)) ;;?
       writeCmd env "COMPRESSION TEXT" ;;?
       (m ← get_m; writeCmd env ("MYCALL " +:+ myCall m)) ;;?
       retM (Ok tt))).
  { intros m3 c Hc.
    repeat first [apply (writeCmd_returns env _ m3 c Hc) | returns_step]. }
  (* the data channel and what follows *)
  assert (Hdata : forall m1 w1 c, cmdConn m1 = Some c ->
    exists r m' w',
      ((m ← get_m;
        match dataConn m with
        | None =>
            d ←? connectTCP env "data" (DataPort (config m));
            upd_m (set_dataConn (Some d));; retM (Ok tt)
        | Some _ => retM (Ok tt)
        end) ;;?
       upd_m (set_busy false);;
       writeCmd env "PUBLIC ON" ;;?
       (m ← get_m;
        if String.eqb (scheme m) "varahf" then writeCmd env "CWID ON"
        else retM (Ok tt)) ;;?
       writeCmd env "COMPRESSION TEXT" ;;?
       (m ← get_m; writeCmd env ("MYCALL " +:+ myCall m)) ;;?
       retM (Ok tt)) (m1, w1) = Done r (m', w') /\
      cmdConn m' = Some c /\
      (r = Ok tt -> is_Some (dataConn m')) /\
      toCall m' = toCall m1 /\ scheme m' = scheme m1 /\ myCall m' = myCall m1 /\
      connectChange m' = connectChange m1 /\ lastState m' = lastState m1 /\
      rig m' = rig m1).
  { intros m1 w1 c Hc. unfold tryM at 1. unfold bindM at 1 2. unfold get_m at 1.
    cbn [fst snd]. destruct (dataConn m1) as [d|] eqn:Hd.
    - unfold retM at 1. unfold bindM at 1. unfold upd_m at 1. cbn [fst snd].
      destruct (Htail (set_busy false m1) c Hc w1) as (r & w' & E).
      exists r, (set_busy false m1), w'. rewrite E.
      repeat split; try reflexivity; try exact Hc. intros _. simpl. rewrite Hd. eauto.
    - unfold tryM at 1. unfold bindM at 1.
      destruct (connectTCP_returns env "data" (DataPort (config m1)) m1 w1)
        as ([d|e] & w2 & E); rewrite E.
      + unfold bindM at 1. unfold upd_m at 1. cbn [fst snd]. unfold retM at 1.
        unfold bindM at 1. unfold upd_m at 1. cbn [fst snd].
        destruct (Htail (set_busy false (set_dataConn (Some d) m1)) c Hc w2)
          as (r & w' & E').
        exists r, (set_busy false (set_dataConn (Some d) m1)), w'. rewrite E'.
        repeat split; try reflexivity; try exact Hc. intros _. simpl. eauto.
      + unfold retM at 1. exists (Err e), m1, w2.
        repeat split; try reflexivity; try exact Hc. discriminate. }
  unfold start. unfold tryM at 1. unfold bindM at 1 2. unfold get_m at 1.
  cbn [fst snd]. destruct (cmdConn m) as [c|] eqn:Hc.
  - unfold retM at 1. unfold bindM at 1 2. unfold get_m at 1. unfold emit, upd_w.
    cbn [fst snd].
    destruct (Hdata m (set_trace (trace w ++ [EvGo_cmdListen (cmdConn m)]) w) c Hc)
      as (r & m' & w' & E & Hc' & Hok & Hf).
    exists r, m', w'. split; [exact E|]. split; [|split; [|exact Hf]].
    + intros _ _. rewrite Hc'. eauto.
    + intros Hr. split; [rewrite Hc'; eauto|exact (Hok Hr)].
  - unfold tryM at 1. unfold bindM at 1.
    destruct (connectTCP_returns env "command" (CmdPort (config m)) m w)
      as ([c|e] & w1 & E); rewrite E.
    + unfold bindM at 1. unfold upd_m at 1. cbn [fst snd]. unfold retM at 1.
      unfold bindM at 1 2. unfold get_m at 1. unfold emit, upd_w. cbn [fst snd].
      destruct (Hdata (set_cmdConn (Some c) m)
                  (set_trace (trace w1 ++ [EvGo_cmdListen (cmdConn (set_cmdConn (Some c) m))]) w1)
                  c eq_refl)
        as (r & m' & w' & E' & Hc' & Hok & Hf).
      exists r, m', w'. split; [exact E'|]. split; [|split; [|exact Hf]].
      * intros _ _. rewrite Hc'. eauto.
      * intros Hr. split; [rewrite Hc'; eauto|exact (Hok Hr)].
    + unfold retM at 1. exists (Err e), m, w1.
      repeat split; try reflexivity; auto; discriminate.
Qed.

(** ** The invariant of the channel handles *)

Ltac dnc_side :=
  lazymatch goal with
  | |- R_inv data_needs_cmd (?m, _) (?m, _) => intros H; exact H
  | |- R_inv data_needs_cmd _ _ =>
      unfold R_inv, data_needs_cmd; cbn;
      first [ tauto | intros _ [? ?]; discriminate | intros; eauto ]
  end.

Section DataNeedsCmd.

Variable env : Env.

Lemma dnc_start : respects (R_inv data_needs_cmd) (start env).
Proof.
  intros [m w]. destruct (start_cases env m w) as (r & m' & w' & E & H & _).
  rewrite E. exact H.
Qed.

Lemma dnc_handleDisconnect : respects (R_inv data_needs_cmd) (handleDisconnect env).
Proof.
  intros [m w]. destruct (decide (slot m w = Some None)) as [Hs|Hs].
  - rewrite (handleDisconnect_run env m w Hs). intros _ [x Hx]. discriminate.
  - rewrite (handleDisconnect_blocked env m w Hs). intros H. exact H.
Qed.

Lemma dnc_Listen : respects (R_inv data_needs_cmd) (Listen env).
Proof.
  unfold Listen. repeat first [apply dnc_start | respects_step | dnc_side].
Qed.

Lemma dnc_Accept : respects (R_inv data_needs_cmd) Accept.
Proof. unfold Accept. repeat first [respects_step | dnc_side]. Qed.

Lemma dnc_DialURL url : respects (R_inv data_needs_cmd) (DialURL env url).
Proof.
  unfold DialURL, DialURL_wait, DialURL_request.
  repeat first [apply dnc_start | respects_step | dnc_side].
Qed.

Lemma dnc_Close : respects (R_inv data_needs_cmd) (Close env).
Proof.
  unfold Close.
  repeat first [apply dnc_handleDisconnect | respects_step | dnc_side].
Qed.

Lemma dnc_handleCmd c : respects (R_inv data_needs_cmd) (handleCmd env c).
Proof.
  unfold handleCmd.
  repeat first [apply dnc_handleDisconnect | respects_step | dnc_side].
Qed.

Lemma dnc_handleCmds cmds : respects (R_inv data_needs_cmd) (handleCmds env cmds).
Proof.
  induction cmds as [|c cmds IH]; cbn [handleCmds].
  - apply respects_ret; exact _.
  - repeat first [apply dnc_handleCmd | apply IH | respects_step | dnc_side].
Qed.

Lemma dnc_cmdListen reads : respects (R_inv data_needs_cmd) (cmdListen env reads).
Proof.
  induction reads as [|r reads IH]; cbn [cmdListen];
    repeat first [apply dnc_handleCmds | apply IH | respects_step | dnc_side].
Qed.

Lemma dnc_run_op op s :
  data_needs_cmd s.1 -> data_needs_cmd (run_op env op s).1.
Proof.
  destruct op; cbn [run_op].
  - apply (respects_upd_m (R_inv data_needs_cmd)). intros; dnc_side.
  - apply dnc_Listen.
  - apply dnc_DialURL.
  - apply dnc_Accept.
  - apply dnc_Close.
  - apply dnc_handleCmd.
  - apply dnc_cmdListen.
  - intros H. exact H.
Qed.

Lemma dnc_run_ops ops s :
  data_needs_cmd s.1 -> data_needs_cmd (run_ops env ops s).1.
Proof.
  revert s. induction ops as [|op ops IH]; intros s H; [exact H|].
  cbn [run_ops fold_left]. apply IH, dnc_run_op, H.
Qed.

End DataNeedsCmd.

(** C3 (as amended).  In every state that a sequence of operations reaches
    from a new session, the data channel handle is non-null only when the
    command channel handle is non-null, that is between a [start] and the
    next teardown.  ([start] opens the data channel while the state is still
    [disconnected], so the handle does not wait for [connected].) *)
Theorem data_channel_only_with_command_channel env ops scheme myCall config w0 :
  data_needs_cmd (run_ops env ops (NewModem scheme myCall config w0)).1.
Proof.
  apply dnc_run_ops. simpl. intros [x Hx]. discriminate.
Qed.

(** ** What a dial writes, in any environment *)


Ltac emits_side tac :=
  intros; cbv beta;
  lazymatch goal with
  | |- R_emits _ (_, ?w) (_, set_trace (trace ?w ++ [?e]) ?w) =>
      exists [e]; split; [reflexivity|constructor; [tac|constructor]]
  | |- R_emits _ (_, ?w) (_, _) =>
      exists []; split; [symmetry; apply app_nil_r|constructor]
  end.








Lemma tryM_at {A B} (c c' : M (result A)) (k : A -> M (result B)) s :
  c s = c' s -> tryM c k s = tryM c' k s.
Proof. unfold tryM, bindM. intros ->. reflexivity. Qed.

(** [DialURL] once the scheme is accepted. *)
Lemma DialURL_scheme_ok env url m w :
  Scheme url = scheme m ->
  DialURL env url (m, w) =
  ((start env ;;? setBandwidth env url ;;?
    (m ← get_m;
     if String.eqb (scheme m) "varahf" then
       let p2p := String.eqb (Values_Get (Params url) "p2p") "true" in
       if p2p then writeCmd env "P2P SESSION" else writeCmd env "WINLINK SESSION"
     else retM (Ok tt)) ;;?
    upd_m (set_toCall (Target url));;
    (m ← get_m; writeCmd env ("CONNECT " +:+ myCall m +:+ " " +:+ toCall m)) ;;?
    retM (Ok tt)) ;;? Accept) (m, w).
Proof.
  intros Hs. rewrite DialURL_request_then_Accept. apply tryM_at.
  unfold DialURL_request. unfold bindM at 1. unfold get_m at 1. cbn [fst snd].
  rewrite Hs, String.eqb_refl. reflexivity.
Qed.


(** ** Concrete runs: counterexamples and instances *)


(** C2, counterexample.  Listen, then CONNECTED REMOTE1, then [Accept]: the
    facade is returned, and its remote address has the empty call sign, not
    REMOTE1. *)
Lemma accepted_remote_address_is_empty :
  Listen env_ok fresh_hf = Done (Ok tt) listening /\
  handleCmd env_ok "CONNECTED REMOTE1" listening = Done true called /\
  match Accept called with
  | Done (Ok v) _ =>
      RemoteAddr v = mkAddr "" "varahf" /\
      RemoteAddr v <> mkAddr "REMOTE1" "varahf"
  | _ => False
  end.
Proof. vm_compute. repeat split. discriminate. Qed.

(** C3, counterexample.  After [Listen] on a new session the data channel
    handle is set and the state is [disconnected]. *)
Lemma data_channel_open_while_disconnected :
  dataConn listening.1 = Some 1%nat /\ lastState listening.1 = disconnected.
Proof. vm_compute. split; reflexivity. Qed.

(** C4, counterexample.  Listen, CONNECTED REMOTE1, and no [Accept]: the
    notification slot still holds [connected].  The DISCONNECTED line sets
    the state and is suspended at the publish: the handles are not cleared,
    the sockets are open, and [handleCmd] has not answered. *)
Lemma DISCONNECTED_with_pending_notification :
  lastState called.1 = connected /\
  slot called.1 called.2 = Some (Some connected) /\
  handleCmd env_ok "DISCONNECTED" called =
    Blocked (set_lastState disconnected called.1, called.2) /\
  cmdConn (state_of (handleCmd env_ok "DISCONNECTED" called)).1 = Some 0%nat /\
  dataConn (state_of (handleCmd env_ok "DISCONNECTED" called)).1 = Some 1%nat /\
  returned (handleCmd env_ok "DISCONNECTED" called) = None.
Proof. vm_compute. repeat split. Qed.

(** C7, counterexample.  [Close] on a new session returns and leaves
    [disconnected] in the notification slot; a second [Close] is suspended
    at its publish and does not return. *)
Lemma second_Close_does_not_return :
  lastState fresh_hf.1 = disconnected /\
  Close env_ok fresh_hf =
    Done (Ok tt) (fresh_hf.1, set_chans [Some disconnected] fresh_hf.2) /\
  Close env_ok (state_of (Close env_ok fresh_hf)) =
    Blocked (state_of (Close env_ok fresh_hf)) /\
  returned ((Close env_ok;; Close env_ok) fresh_hf) = None.
Proof. vm_compute. repeat split. Qed.

(** C5, counterexample.  [Close] on a new session returns and leaves
    [disconnected] in the notification slot.  The dial of N0CALL that follows
    writes the seven commands and fails with "connection failed" at its
    receive, also when CONNECTED N0CALL is what the Event Reader would read
    next; the state is [disconnected]. *)
Lemma dial_after_Close_fails_at_once :
  Close env_ok fresh_hf = Done (Ok tt) closed /\
  cmdConn closed.1 = None /\ dataConn closed.1 = None /\
  lastState closed.1 = disconnected /\
  slot closed.1 closed.2 = Some (Some disconnected) /\
  returned (DialURL env_ok url_2300 closed) =
    Some (Err (errors_New "connection failed")) /\
  returned (DialURL_with env_ok url_2300 reads_N0CALL closed) =
    Some (Err (errors_New "connection failed")) /\
  writes (trace (state_of (DialURL_with env_ok url_2300 reads_N0CALL closed)).2) =
    map (fun cmd => (0%nat, cmd_line cmd))
        ["PUBLIC ON"; "CWID ON"; "COMPRESSION TEXT"; "MYCALL ME"; "BW2300";
         "WINLINK SESSION"; "CONNECT ME N0CALL"] /\
  lastState (state_of (DialURL_with env_ok url_2300 reads_N0CALL closed)).1 =
    disconnected.
Proof. vm_compute. repeat split. Qed.

Lemma env_ok_reliable : env_reliable env_ok.
Proof. repeat split. Qed.

Lemma env_ok_writes : writes_ok env_ok.
Proof. intros t c b. reflexivity. Qed.

Lemma FOO_BAR_unrecognized : unrecognized "FOO BAR".
Proof.
  split.
  - unfold exact_entries. rewrite !elem_of_cons, elem_of_nil.
    intros H. repeat destruct H as [H|H]; discriminate || exact H.
  - unfold prefix_entries. intros p. rewrite !elem_of_cons, elem_of_nil.
    intros H. repeat destruct H as [H|H]; subst; try reflexivity. destruct H.
Defined.


Lemma accept_after_early_CONNECTED_witness :
  env_reliable env_ok /\ idle fresh_hf /\
  HasPrefix "CONNECTED REMOTE1" "CONNECTED" = true /\
  exists s1 s2 v s3,
    Listen env_ok fresh_hf = Done (Ok tt) s1 /\
    handleCmd env_ok "CONNECTED REMOTE1" s1 = Done true s2 /\
    slot s2.1 s2.2 = Some (Some connected) /\
    Accept s2 = Done (Ok v) s3 /\
    lastState (modem v) = connected /\
    dataConn s3.1 = Some (conn_TCPConn v) /\
    sock_is_open s3.2 (conn_TCPConn v) /\
    RemoteAddr v = mkAddr "" "varahf".
Proof.
  split; [exact env_ok_reliable|]. split; [repeat split|]. split; [reflexivity|].
  apply (accept_after_early_CONNECTED env_ok fresh_hf.1 fresh_hf.2 "CONNECTED REMOTE1").
  - exact env_ok_reliable.
  - repeat split.
  - reflexivity.
Defined.

Lemma DISCONNECTED_tears_down_witness :
  lastState dialled.1 = connected /\
  slot dialled.1 dialled.2 = Some None /\
  exists m' w',
    handleCmd env_ok "DISCONNECTED" dialled = Done false (m', w') /\
    lastState m' = disconnected /\
    cmdConn m' = None /\ dataConn m' = None /\
    busy m' = false /\ toCall m' = "" /\
    slot dialled.1 w' = Some (Some disconnected).
Proof.
  split; [reflexivity|]. split; [reflexivity|].
  destruct (DISCONNECTED_tears_down env_ok dialled.1 dialled.2) as [H _].
  destruct (H eq_refl) as (m' & w' & H1 & H2 & H3 & H4 & H5 & H6 & H7 & _).
  exists m', w'. repeat split; assumption.
Defined.

Lemma dial_N0CALL_2300_hf_witness :
  env_reliable env_ok /\
  cmdConn fresh_hf.1 = None /\ dataConn fresh_hf.1 = None /\
  scheme fresh_hf.1 = "varahf" /\ Scheme url_2300 = "varahf" /\
  Target url_2300 = "N0CALL" /\
  Values_Get (Params url_2300) "bw" = "2300" /\
  Values_Get (Params url_2300) "p2p" <> "true" /\
  slot fresh_hf.1 fresh_hf.2 = Some None /\
  slot closed.1 closed.2 = Some (Some disconnected) /\
  (exists m1 w1 t m2 w2 v,
     DialURL env_ok url_2300 fresh_hf = Blocked (m1, w1) /\
     trace w1 = trace fresh_hf.2 ++ t /\
     writes t = map (fun cmd => (0%nat, cmd_line cmd))
                    ["PUBLIC ON"; "CWID ON"; "COMPRESSION TEXT"; "MYCALL ME";
                     "BW2300"; "WINLINK SESSION"; "CONNECT ME N0CALL"] /\
     DialURL_with env_ok url_2300 reads_N0CALL fresh_hf = Done (Ok v) (m2, w2) /\
     lastState m2 = connected /\
     RemoteAddr v = mkAddr "N0CALL" "varahf") /\
  (exists s2,
     DialURL env_ok url_2300 closed =
       Done (Err (errors_New "connection failed")) s2).
Proof.
  assert (Hp : Values_Get (Params url_2300) "p2p" <> "true")
    by (vm_compute; discriminate).
  split; [exact env_ok_reliable|].
  split; [reflexivity|]. split; [reflexivity|].
  split; [reflexivity|]. split; [reflexivity|]. split; [reflexivity|].
  split; [vm_compute; reflexivity|]. split; [exact Hp|].
  split; [reflexivity|]. split; [reflexivity|]. split.
  - destruct (dial_N0CALL_2300_hf env_ok url_2300 fresh_hf.1 fresh_hf.2
                env_ok_reliable eq_refl eq_refl eq_refl eq_refl eq_refl eq_refl Hp)
      as (m1 & w1 & t & _ & H2 & H3 & _ & H5 & _).
    destruct (H5 eq_refl) as (H6 & m2 & w2 & v & H7 & H8 & _ & _ & H9 & _).
    exists m1, w1, t, m2, w2, v. repeat split; assumption.
  - destruct (dial_N0CALL_2300_hf env_ok url_2300 closed.1 closed.2
                env_ok_reliable eq_refl eq_refl eq_refl eq_refl eq_refl eq_refl Hp)
      as (m1 & w1 & t & _ & _ & _ & _ & _ & H6).
    destruct (H6 eq_refl) as (w2 & H7 & _).
    eexists. exact H7.
Defined.

Lemma Close_escalates_to_ABORT_witness :
  writes_ok env_ok /\ lastState dialled.1 = connected /\
  cmdConn dialled.1 = Some 0%nat /\ sock_is_open dialled.2 0 /\
  slot dialled.1 dialled.2 = Some None /\
  exists w' t,
    Close env_ok dialled = Done (Ok tt) (torn_down dialled.1, w') /\
    trace w' = trace dialled.2 ++ t /\
    timeline t = [EvWrite 0 (cmd_line "DISCONNECT") None;
                  EvAfter (time_Second * 10);
                  EvWrite 0 (cmd_line "ABORT") None].
Proof.
  split; [exact env_ok_writes|]. split; [reflexivity|]. split; [reflexivity|].
  split; [reflexivity|]. split; [reflexivity|].
  apply (Close_escalates_to_ABORT env_ok dialled.1 dialled.2 0%nat
           env_ok_writes eq_refl eq_refl eq_refl).
  reflexivity.
Defined.

Lemma Close_while_disconnected_witness :
  lastState fresh_hf.1 = disconnected /\
  slot fresh_hf.1 fresh_hf.2 = Some None /\
  exists w',
    Close env_ok fresh_hf = Done (Ok tt) (torn_down fresh_hf.1, w') /\
    writes (trace w') = writes (trace fresh_hf.2) /\
    slot fresh_hf.1 w' = Some (Some disconnected) /\
    exists s'', Close env_ok (torn_down fresh_hf.1, w') = Blocked s''.
Proof.
  split; [reflexivity|]. split; [reflexivity|].
  destruct (Close_while_disconnected env_ok fresh_hf.1 fresh_hf.2 eq_refl)
    as [H _].
  destruct (H eq_refl) as (w' & H1 & _ & H3 & _ & _ & _ & H7 & H8).
  exists w'. repeat split; assumption.
Defined.

Lemma unrecognized_line_keeps_reader_witness :
  unrecognized "FOO BAR" /\
  lastState (state_of (handleCmds env_ok ["FOO BAR"; "CONNECTED REMOTE1"] listening)).1
    = connected /\
  exists w2, handleCmds env_ok ["FOO BAR"; "CONNECTED REMOTE1"] listening =
             Done true (set_lastState connected listening.1, w2) /\
             slot listening.1 w2 = Some (Some connected).
Proof.
  split; [exact FOO_BAR_unrecognized|].
  destruct (unrecognized_line_keeps_reader env_ok "FOO BAR" listening.1 listening.2
              FOO_BAR_unrecognized) as (_ & H & _).
  destruct (H "CONNECTED REMOTE1" eq_refl) as [H1 H2].
  split; [exact H1|]. apply H2. reflexivity.
Defined.

Lemma DialURL_unsupported_scheme_witness :
  Scheme url_vhf <> scheme fresh_hf.1 /\
  DialURL env_ok url_vhf fresh_hf = Done (Err ErrUnsupportedScheme) fresh_hf.
Proof.
  assert (H : Scheme url_vhf <> scheme fresh_hf.1) by discriminate.
  split; [exact H|].
  apply (DialURL_unsupported_scheme env_ok url_vhf fresh_hf.1 fresh_hf.2 H).
Defined.


(** * Further properties of the code *)

(** A step that leaves the field of the invariant alone. *)
Ltac keeps_side :=
  lazymatch goal with
  | |- R_inv _ _ _ => unfold R_inv; cbn; intros H; exact H
  end.

(** ** The Event Reader *)

Lemma reader_handleDisconnect env :
  respects (R_emits reader_event) (handleDisconnect env).
Proof.
  unfold handleDisconnect.
  repeat first [ respects_step | emits_side ltac:(exact I) ].
Qed.

Lemma reader_handleCmd env c : respects (R_emits reader_event) (handleCmd env c).
Proof.
  unfold handleCmd.
  repeat first [ apply reader_handleDisconnect | respects_step
               | emits_side ltac:(exact I) ].
Qed.

Lemma reader_handleCmds env cmds : respects (R_emits reader_event) (handleCmds env cmds).
Proof.
  induction cmds as [|c cmds IH]; cbn [handleCmds].
  - apply respects_ret; exact _.
  - repeat first [apply reader_handleCmd | apply IH | respects_step].
Qed.

(** X1.  Whatever the command channel delivers, and in whatever state, the
    Event Reader writes no command, makes no connection and starts no
    goroutine: what [cmdListen] adds to the trace are closes of sockets,
    signals to the PTT hook and log entries. *)
Theorem reader_never_writes env reads s :
  exists t,
    trace (state_of (cmdListen env reads s)).2 = trace s.2 ++ t /\
    Forall reader_event t /\ writes t = [].
Proof.
  assert (H : respects (R_emits reader_event) (cmdListen env reads)).
  { induction reads as [|r reads IH]; cbn [cmdListen];
      repeat first [ apply reader_handleCmds | apply IH | respects_step
                   | emits_side ltac:(exact I) ]. }
  destruct (H s) as (t & Ht & Ft). exists t. split; [exact Ht|]. split; [exact Ft|].
  clear Ht. induction Ft as [|e t He _ IH]; [reflexivity|].
  destruct e; cbn [writes]; try exact IH. destruct He.
Qed.

(** X2.  The busy flag after a line: BUSY ON sets it, BUSY OFF clears it,
    DISCONNECTED clears it with the rest of the teardown (unless the
    dispatcher is suspended at the publish, before the teardown), and every
    other line leaves it as it was. *)
Theorem busy_flag_after_line env c m w :
  Busy (state_of (handleCmd env c (m, w))).1 =
    if String.eqb c "BUSY ON" then true
    else if String.eqb c "BUSY OFF" then false
    else if String.eqb c "DISCONNECTED"
         then (if decide (slot m w = Some None) then false else Busy m)
    else Busy m.
Proof.
  destruct (String.eqb_spec c "BUSY ON") as [->|H1].
  { change (handleCmd env "BUSY ON")
      with (debugPrint env ("got cmd: " +:+ "BUSY ON");;
            upd_m (set_busy true);; retM true).
    unfold bindM. rewrite debugPrint_run. reflexivity. }
  destruct (String.eqb_spec c "BUSY OFF") as [->|H2].
  { change (handleCmd env "BUSY OFF")
      with (debugPrint env ("got cmd: " +:+ "BUSY OFF");;
            upd_m (set_busy false);; retM true).
    unfold bindM. rewrite debugPrint_run. reflexivity. }
  destruct (String.eqb_spec c "DISCONNECTED") as [->|H3].
  - change (handleCmd env "DISCONNECTED")
      with (debugPrint env ("got cmd: " +:+ "DISCONNECTED");;
            handleDisconnect env;; retM false).
    unfold bindM at 1. rewrite debugPrint_run. unfold bindM.
    assert (E : slot m (set_trace (trace w ++ dbg env ("got cmd: " +:+ "DISCONNECTED")) w)
                = slot m w) by reflexivity.
    destruct (decide (slot m w = Some None)) as [Hs|Hs].
    + rewrite handleDisconnect_run by (rewrite E; exact Hs). reflexivity.
    + rewrite handleDisconnect_blocked by (rewrite E; exact Hs). reflexivity.
  - assert (H : respects (R_inv (fun m' => busy m' = busy m)) (handleCmd env c)).
    { unfold handleCmd.
      rewrite (string_eqb_false _ _ H1), (string_eqb_false _ _ H2),
              (string_eqb_false _ _ H3).
      repeat first [ respects_step | keeps_side ]. }
    apply (H (m, w)). reflexivity.
Qed.

(** X3.  After [SetPTT], the lines PTT ON and PTT OFF key the hook that was
    set, once and with the state of the line; with no hook ([nil]) they do
    nothing.  The dispatcher goes on, and nothing else of the session or of
    the world changes. *)
Theorem PTT_lines_key_the_hook env ptt (on : bool) m w :
  let line := if on then "PTT ON" else "PTT OFF" in
  (SetPTT ptt;; handleCmd env line) (m, w) =
  Done true
    (set_rig ptt m,
     set_trace (trace w ++ dbg env ("got cmd: " +:+ line) ++
                match ptt with Some r => [EvSetPTT r on] | None => [] end) w).
Proof.
  destruct on; cbv zeta; unfold bindM at 1; unfold SetPTT, upd_m; cbn [fst snd].
  - change (handleCmd env "PTT ON")
      with (debugPrint env ("got cmd: " +:+ "PTT ON");; sendPTT true;; retM true).
    unfold bindM. rewrite debugPrint_run. rewrite sendPTT_run.
    unfold ptt_events, retM. cbn [rig set_rig set_trace trace socks chans].
    rewrite <- app_assoc. reflexivity.
  - change (handleCmd env "PTT OFF")
      with (debugPrint env ("got cmd: " +:+ "PTT OFF");; sendPTT false;; retM true).
    unfold bindM. rewrite debugPrint_run. rewrite sendPTT_run.
    unfold ptt_events, retM. cbn [rig set_rig set_trace trace socks chans].
    rewrite <- app_assoc. reflexivity.
Qed.

(** ** Framing *)






Lemma Split_no_sep a sep : lacks sep a = true -> Split a sep = [a].
Proof.
  induction a as [|x a IH]; [reflexivity|].
  cbn [lacks Split]. intros H. apply andb_prop in H as [Hx Ha].
  apply negb_true_iff in Hx. rewrite Hx, (IH Ha). reflexivity.
Qed.

(** X5.  No reassembly across reads: a read that ends without a carriage
    return is split and dispatched like any other, so the unterminated
    fragment is handed to [handleCmd] as a line of its own, and what the
    next read brings is dispatched apart from it. *)
Theorem fragment_is_dispatched_as_a_line env a reads m w c :
  a <> "" -> lacks CR a = true ->
  cmdConn m = Some c -> sock_is_open w c ->
  cmdListen env (ReadData a :: reads) (m, w) =
  (go ← handleCmd env a;
   if go then cmdListen env reads else retM ReaderReturned) (m, w).
Proof.
  intros Hne Hcr Hk Ho.
  cbn [cmdListen]. unfold bindM at 1 2. unfold get_m, get_w. cbn [fst snd].
  rewrite Hk. change (socks (m, w).2) with (socks w).
  unfold sock_is_open in Ho. rewrite Ho. rewrite (Split_no_sep a CR Hcr).
  cbn [handleCmds]. rewrite (string_eqb_false _ _ Hne).
  unfold bindM. destruct (handleCmd env a (m, w)) as [[|] s'| |]; reflexivity.
Qed.

Lemma fragment_is_dispatched_as_a_line_witness :
  "CONNEC" <> "" /\ lacks CR "CONNEC" = true /\
  cmdConn listening.1 = Some 0%nat /\ sock_is_open listening.2 0 /\
  cmdListen env_ok [ReadData "CONNEC"; ReadData (cmd_line "TED N0CALL")] listening =
  (go ← handleCmd env_ok "CONNEC";
   if go then cmdListen env_ok [ReadData (cmd_line "TED N0CALL")]
   else retM ReaderReturned) listening /\
  lastState (state_of (cmdListen env_ok
               [ReadData "CONNEC"; ReadData (cmd_line "TED N0CALL")] listening)).1
    = disconnected /\
  lastState (state_of (cmdListen env_ok
               [ReadData (cmd_line "CONNECTED N0CALL")] listening)).1 = connected.
Proof.
  assert (Hne : "CONNEC" <> "") by discriminate.
  split; [exact Hne|]. split; [reflexivity|]. split; [reflexivity|].
  split; [reflexivity|]. split.
  - apply (fragment_is_dispatched_as_a_line env_ok "CONNEC"
             [ReadData (cmd_line "TED N0CALL")] listening.1 listening.2 0%nat
             Hne eq_refl eq_refl eq_refl).
  - split; vm_compute; reflexivity.
Defined.

(** ** The notification slot *)

(** X6.  [Accept] when the notification is not [connected]: it returns the
    error "connection failed" and sets the data handle to nil without
    closing it, so the socket of the data channel, if there was one, stays
    open with no handle left in the session; the command handle, the trace
    and the sockets are as before, and the notification is consumed. *)
Theorem Accept_failure_drops_data_handle m w res :
  slot m w = Some (Some res) -> res <> connected ->
  exists w',
    Accept (m, w) = Done (Err (errors_New "connection failed")) (set_dataConn None m, w') /\
    socks w' = socks w /\ trace w' = trace w /\ slot m w' = Some None /\
    forall d, dataConn m = Some d -> sock_is_open w d -> sock_is_open w' d.
Proof.
  intros Hs Hn. eexists. split; [apply (Accept_failed m w res Hs Hn)|].
  split; [reflexivity|]. split; [reflexivity|]. split.
  - apply (slot_insert m w None _ Hs).
  - intros d _ Ho. exact Ho.
Qed.

Lemma Accept_failure_drops_data_handle_witness :
  slot reopened.1 reopened.2 = Some (Some disconnected) /\
  disconnected <> connected /\
  dataConn reopened.1 = Some 1%nat /\ sock_is_open reopened.2 1 /\
  exists w',
    Accept (reopened.1, reopened.2) =
      Done (Err (errors_New "connection failed")) (set_dataConn None reopened.1, w') /\
    sock_is_open w' 1.
Proof.
  assert (Hn : disconnected <> connected) by discriminate.
  split; [reflexivity|]. split; [exact Hn|]. split; [reflexivity|].
  split; [reflexivity|].
  destruct (Accept_failure_drops_data_handle reopened.1 reopened.2 disconnected
              eq_refl Hn) as (w' & H1 & _ & _ & _ & H5).
  exists w'. split; [exact H1|]. apply (H5 1%nat); reflexivity.
Defined.

(** X7.  A CONNECTED line while the notification slot still holds a value:
    the dispatcher sets the state to [connected] and is suspended at the
    publish; it answers neither to go on nor to stop, so the Event Reader
    dispatches nothing more until the slot is emptied. *)
Theorem CONNECTED_with_full_slot_suspends_reader env line m w v rest reads c :
  HasPrefix line "CONNECTED" = true -> slot m w = Some (Some v) ->
  line <> "" -> lacks CR line = true ->
  cmdConn m = Some c -> sock_is_open w c ->
  let s' := (set_lastState connected m,
             set_trace (trace w ++ dbg env ("got cmd: " +:+ line)) w) in
  handleCmd env line (m, w) = Blocked s' /\
  handleCmds env (line :: rest) (m, w) = Blocked s' /\
  cmdListen env (ReadData (cmd_line line) :: reads) (m, w) = Blocked s'.
Proof.
  intros Hl Hs Hne Hcr Hk Ho s'.
  assert (H : handleCmd env line (m, w) = Blocked s').
  { rewrite (handleCmd_CONNECTED env line _ Hl).
    unfold bindM. rewrite debugPrint_run.
    unfold handleConnect, bindM, upd_m, get_m, chan_send. cbn [fst snd].
    unfold slot in Hs. cbn [chans set_trace connectChange set_lastState].
    rewrite Hs. reflexivity. }
  split; [exact H|].
  assert (H2 : forall rest', handleCmds env (line :: rest') (m, w) = Blocked s').
  { intros rest'. cbn [handleCmds]. rewrite (string_eqb_false _ _ Hne).
    unfold bindM. rewrite H. reflexivity. }
  split; [apply H2|].
  cbn [cmdListen]. unfold bindM at 1 2. unfold get_m, get_w. cbn [fst snd].
  rewrite Hk. change (socks (m, w).2) with (socks w).
  unfold sock_is_open in Ho. rewrite Ho.
  unfold cmd_line, CRs. rewrite Split_line by exact Hcr.
  unfold bindM. rewrite H2. reflexivity.
Qed.

Lemma CONNECTED_with_full_slot_suspends_reader_witness :
  HasPrefix "CONNECTED REMOTE2" "CONNECTED" = true /\
  slot called.1 called.2 = Some (Some connected) /\
  "CONNECTED REMOTE2" <> "" /\ lacks CR "CONNECTED REMOTE2" = true /\
  cmdConn called.1 = Some 0%nat /\ sock_is_open called.2 0 /\
  cmdListen env_ok [ReadData (cmd_line "CONNECTED REMOTE2"); ReadData (cmd_line "BUSY ON")]
    called = Blocked called.
Proof.
  assert (Hne : "CONNECTED REMOTE2" <> "") by discriminate.
  split; [reflexivity|]. split; [reflexivity|]. split; [exact Hne|].
  split; [reflexivity|]. split; [reflexivity|]. split; [reflexivity|].
  destruct (CONNECTED_with_full_slot_suspends_reader env_ok "CONNECTED REMOTE2"
              called.1 called.2 connected [] [ReadData (cmd_line "BUSY ON")] 0%nat
              eq_refl eq_refl Hne eq_refl eq_refl eq_refl) as (_ & _ & H).
  exact H.
Defined.

(** X8.  DISCONNECTED ends the dispatch: whatever follows it in the same
    read is not dispatched, whether the teardown ran or the dispatcher is
    suspended at its publish. *)
Theorem nothing_is_dispatched_after_DISCONNECTED env rest s :
  handleCmds env ("DISCONNECTED" :: rest) s = handleCmds env ["DISCONNECTED"] s /\
  returned (handleCmds env ("DISCONNECTED" :: rest) s) <> Some true.
Proof.
  cbn [handleCmds].
  change (String.eqb "DISCONNECTED" "") with false. cbv iota.
  assert (H : forall s', handleCmd env "DISCONNECTED" s <> Done true s').
  { intros s' E.
    change (handleCmd env "DISCONNECTED")
      with (debugPrint env ("got cmd: " +:+ "DISCONNECTED");;
            handleDisconnect env;; retM false) in E.
    unfold bindM in E.
    destruct (debugPrint env _ s) as [[] s1| |]; try discriminate.
    destruct (handleDisconnect env s1) as [[] s2| |]; discriminate. }
  unfold bindM. destruct (handleCmd env "DISCONNECTED" s) as [[|] s'| |] eqn:E.
  - exfalso. apply (H s'). reflexivity.
  - split; [reflexivity|discriminate].
  - split; [reflexivity|discriminate].
  - split; [reflexivity|discriminate].
Qed.

(** ** Failures of [Close] and [start] *)

Lemma writeCmd_fails env cmd m w c e :
  cmdConn m = Some c -> sock_is_open w c ->
  (forall t, env_write env t c (cmd_line cmd) = Some e) ->
  writeCmd env cmd (m, w) =
  Done (Err (ErrNet e))
       (m, set_trace (trace w ++ dbg env ("writing cmd: " +:+ cmd) ++
                      [EvWrite c (cmd_line cmd) (Some e)]) w).
Proof.
  intros Hc Ho He. unfold writeCmd, bindM. rewrite debugPrint_run.
  unfold get_m. cbn [fst snd]. rewrite Hc.
  unfold conn_Write, bindM, get_w, emit, upd_w, retM. cbn [fst snd socks set_trace trace].
  unfold sock_is_open in Ho.
  destruct (socks w !! c) as [sk|] eqn:E; [|discriminate].
  cbn in Ho. injection Ho as Ho. rewrite Ho.
  fold (cmd_line cmd). rewrite He.
  cbn [chans]. rewrite <- app_assoc. reflexivity.
Qed.

(** X9.  [Close] on a connected session whose DISCONNECT cannot be written:
    the error of the write is returned at once.  There is no wait and no
    ABORT, the PTT hook is not signalled, nothing is torn down: the session
    is still [connected], with its handles, and the sockets and the
    notification slot are as before. *)
Theorem Close_write_failure_skips_teardown env m w c e :
  lastState m = connected -> cmdConn m = Some c -> sock_is_open w c ->
  (forall t, env_write env t c (cmd_line "DISCONNECT") = Some e) ->
  exists t,
    Close env (m, w) = Done (Err (ErrNet e)) (m, set_trace (trace w ++ t) w) /\
    timeline t = [EvWrite c (cmd_line "DISCONNECT") (Some e)] /\
    Forall (fun ev => forall r on, ev <> EvSetPTT r on) t /\
    Forall (fun ev => forall k, ev <> EvClose k) t.
Proof.
  intros Hl Hc Ho He.
  exists (dbg env ("writing cmd: " +:+ "DISCONNECT") ++
          [EvWrite c (cmd_line "DISCONNECT") (Some e)]).
  split.
  - unfold Close. unfold tryM at 1. unfold bindM at 1 2.
    unfold get_m at 1. cbn [fst snd]. rewrite Hl.
    destruct (decide (connected = connected)) as [_|Hn]; [|contradiction].
    rewrite Hc. unfold tryM at 1. unfold bindM at 1.
    rewrite (writeCmd_fails env _ m w c e Hc Ho He). reflexivity.
  - rewrite timeline_app, dbg_timeline. split; [reflexivity|].
    unfold dbg. destruct (debug env); split; repeat constructor; discriminate.
Qed.

Lemma Close_write_failure_skips_teardown_witness :
  lastState dialled.1 = connected /\ cmdConn dialled.1 = Some 0%nat /\
  sock_is_open dialled.2 0 /\
  (forall t, env_write env_no_write t 0%nat (cmd_line "DISCONNECT") = Some EOF) /\
  exists t,
    Close env_no_write (dialled.1, dialled.2) =
      Done (Err (ErrNet EOF)) (dialled.1, set_trace (trace dialled.2 ++ t) dialled.2) /\
    timeline t = [EvWrite 0 (cmd_line "DISCONNECT") (Some EOF)].
Proof.
  split; [reflexivity|]. split; [reflexivity|]. split; [reflexivity|].
  split; [intros t; reflexivity|].
  destruct (Close_write_failure_skips_teardown env_no_write dialled.1 dialled.2 0%nat EOF
              eq_refl eq_refl eq_refl (fun t => eq_refl)) as (t & H1 & H2 & _).
  exists t. split; [exact H1|exact H2].
Defined.

(** X10.  [start] on a session whose channels are open: it connects to
    nothing, but it starts one more Event Reader on the command channel and
    writes the negotiation commands again; the busy flag is cleared, and
    nothing else of the session changes. *)
Theorem start_reuses_open_channels env m w c d :
  writes_ok env -> cmdConn m = Some c -> dataConn m = Some d -> sock_is_open w c ->
  exists t,
    start env (m, w) = Done (Ok tt) (set_busy false m, set_trace (trace w ++ t) w) /\
    Forall (fun ev => forall a r, ev <> EvDial a r) t /\
    spawned t = [Some c] /\
    writes t = map (fun cmd => (c, cmd_line cmd)) (start_cmds m).
Proof.
  intros Hw Hc Hd Ho.
  assert (Hcb : cmdConn (set_busy false m) = Some c) by exact Hc.
  assert (Hrun : forall cmd t,
    writeCmd env cmd (set_busy false m, set_trace t w) =
    Done (Ok tt) (set_busy false m, set_trace (t ++ cmd_events env c cmd) w)).
  { intros cmd t. destruct w as [t0 ss cs].
    apply (writeCmd_run env cmd _ t ss cs c Hw Hcb Ho). }
  exists ([EvGo_cmdListen (Some c)] ++ cmd_events env c "PUBLIC ON" ++
          (if String.eqb (scheme m) "varahf" then cmd_events env c "CWID ON" else []) ++
          cmd_events env c "COMPRESSION TEXT" ++
          cmd_events env c ("MYCALL " +:+ myCall m)).
  split.
  - unfold start. unfold tryM at 1. unfold bindM at 1 2. unfold get_m at 1.
    cbn [fst snd]. rewrite Hc. unfold retM at 1.
    unfold bindM at 1 2. unfold get_m at 1. unfold emit, upd_w. cbn [fst snd].
    rewrite Hc.
    unfold tryM at 1. unfold bindM at 1 2. unfold get_m at 1. cbn [fst snd].
    rewrite Hd. unfold retM at 1.
    unfold bindM at 1. unfold upd_m at 1. cbn [fst snd].
    unfold tryM at 1. unfold bindM at 1. rewrite Hrun.
    unfold tryM at 1. unfold bindM at 1 2. unfold get_m at 1. cbn [fst snd].
    change (scheme (set_busy false m)) with (scheme m).
    destruct (String.eqb (scheme m) "varahf").
    + rewrite Hrun. unfold tryM at 1. unfold bindM at 1. rewrite Hrun.
      unfold tryM at 1. unfold bindM at 1 2. unfold get_m at 1. cbn [fst snd].
      rewrite Hrun. unfold retM. change (myCall (set_busy false m)) with (myCall m).
      cbn [set_trace trace socks chans]. rewrite <- !app_assoc. reflexivity.
    + unfold retM at 1. unfold tryM at 1. unfold bindM at 1. rewrite Hrun.
      unfold tryM at 1. unfold bindM at 1 2. unfold get_m at 1. cbn [fst snd].
      rewrite Hrun. unfold retM. change (myCall (set_busy false m)) with (myCall m).
      cbn [set_trace trace socks chans]. rewrite <- !app_assoc. reflexivity.
  - unfold start_cmds, cmd_events, dbg.
    destruct (String.eqb (scheme m) "varahf"), (debug env);
      (split; [repeat constructor; discriminate|]);
      (split; reflexivity).
Qed.

Lemma start_reuses_open_channels_witness :
  writes_ok env_ok /\ cmdConn listening.1 = Some 0%nat /\
  dataConn listening.1 = Some 1%nat /\ sock_is_open listening.2 0 /\
  exists t,
    start env_ok (listening.1, listening.2) =
      Done (Ok tt) (set_busy false listening.1,
                    set_trace (trace listening.2 ++ t) listening.2) /\
    spawned t = [Some 0%nat] /\
    spawned (trace listening.2 ++ t) = [Some 0%nat; Some 0%nat].
Proof.
  split; [exact env_ok_writes|]. split; [reflexivity|]. split; [reflexivity|].
  split; [reflexivity|].
  destruct (start_reuses_open_channels env_ok listening.1 listening.2 0%nat 1%nat
              env_ok_writes eq_refl eq_refl eq_refl) as (t & H1 & _ & H3 & _).
  exists t. split; [exact H1|]. split; [exact H3|].
  assert (Happ : forall a b, spawned (a ++ b) = spawned a ++ spawned b).
  { intros a b. induction a as [|ev a IH]; [reflexivity|].
    destruct ev; cbn [app spawned]; rewrite ?IH; reflexivity. }
  rewrite Happ, H3. reflexivity.
Defined.

Lemma connectTCP_unresolved env name port m w e :
  (forall t, env_resolve env t (tcp_addr m port) = Some e) ->
  connectTCP env name port (m, w) =
  Done (Err (fmt_Errorf ("couldn't resolve VARA " +:+ name +:+ " address: ") e))
       (m, set_trace (trace w ++ dbg env ("Connecting " +:+ name +:+ " TCP port") ++
                      [EvResolve (tcp_addr m port) (Some e)]) w).
Proof.
  intros Hr. unfold connectTCP, bindM. rewrite debugPrint_run.
  unfold get_m, net_ResolveTCPAddr, bindM, get_w, emit, upd_w, retM.
  cbn [fst snd set_trace trace socks chans].
  fold (tcp_addr m port). rewrite Hr.
  cbn [fst snd set_trace trace socks chans]. rewrite <- app_assoc. reflexivity.
Qed.

Lemma connectTCP_reached env name port m w :
  (forall t, env_resolve env t (tcp_addr m port) = None) ->
  (forall t, env_dial env t (tcp_addr m port) = None) ->
  connectTCP env name port (m, w) =
  Done (Ok (length (socks w)))
       (m, mkWorld (trace w ++ connect_events env name (tcp_addr m port) (length (socks w)))
                   (socks w ++ [mkSocket (tcp_addr m port) true])
                   (chans w)).
Proof.
  intros Hr Hd. unfold connectTCP, bindM. rewrite debugPrint_run.
  unfold get_m, net_ResolveTCPAddr, net_DialTCP, bindM, get_w, emit, upd_w, retM.
  cbn [fst snd set_trace trace socks chans set_socks].
  fold (tcp_addr m port). rewrite Hr.
  cbn [fst snd set_trace trace socks chans set_socks]. rewrite Hd.
  cbn [fst snd set_trace trace socks chans set_socks].
  unfold connect_events. rewrite <- !app_assoc. reflexivity.
Qed.

(** X11.  The command port cannot be resolved: [start] returns the error of
    the resolution, wrapped, having made no connection, started no Event
    Reader and written nothing, and the session is as before; [Listen] and
    [DialURL] return the same error in the same state. *)
Theorem command_port_unreachable env m w e url :
  cmdConn m = None ->
  (forall t, env_resolve env t (tcp_addr m (CmdPort (config m))) = Some e) ->
  Scheme url = scheme m ->
  let err := fmt_Errorf "couldn't resolve VARA command address: " e in
  let s' := (m, set_trace (trace w ++ dbg env "Connecting command TCP port" ++
                           [EvResolve (tcp_addr m (CmdPort (config m))) (Some e)]) w) in
  start env (m, w) = Done (Err err) s' /\
  Listen env (m, w) = Done (Err err) s' /\
  DialURL env url (m, w) = Done (Err err) s'.
Proof.
  intros Hc Hr Hs err s'.
  assert (H : start env (m, w) = Done (Err err) s').
  { unfold start. unfold tryM at 1. unfold bindM at 1 2. unfold get_m at 1.
    cbn [fst snd]. rewrite Hc. unfold tryM at 1. unfold bindM at 1.
    rewrite (connectTCP_unresolved env "command" _ m w e Hr). reflexivity. }
  split; [exact H|]. split.
  - unfold Listen. unfold tryM at 1. unfold bindM at 1. rewrite H. reflexivity.
  - rewrite (DialURL_scheme_ok env url m w Hs).
    unfold tryM at 1 2. unfold bindM at 1 2. rewrite H. reflexivity.
Qed.

Lemma command_port_unreachable_witness :
  cmdConn fresh_hf.1 = None /\
  (forall t, env_resolve env_no_cmd_port t
               (tcp_addr fresh_hf.1 (CmdPort (config fresh_hf.1)))
             = Some (ErrOther "no such host")) /\
  Scheme url_2300 = scheme fresh_hf.1 /\
  DialURL env_no_cmd_port url_2300 (fresh_hf.1, fresh_hf.2) =
    Done (Err (fmt_Errorf "couldn't resolve VARA command address: "
                 (ErrOther "no such host")))
         (fresh_hf.1,
          set_trace [EvResolve "localhost:8300" (Some (ErrOther "no such host"))]
                    fresh_hf.2).
Proof.
  split; [reflexivity|]. split; [intros t; reflexivity|]. split; [reflexivity|].
  destruct (command_port_unreachable env_no_cmd_port fresh_hf.1 fresh_hf.2
              (ErrOther "no such host") url_2300 eq_refl (fun t => eq_refl) eq_refl)
    as (_ & _ & H).
  exact H.
Defined.

(** X12.  The command port is reached and the data port cannot be
    resolved: [start] returns the wrapped error, and leaves the session with
    the command channel open, its handle set and an Event Reader started on
    it; no command has been written and the socket is not closed. *)
Theorem data_port_unreachable_keeps_command_channel env m w e :
  cmdConn m = None -> dataConn m = None ->
  (forall t, env_resolve env t (tcp_addr m (CmdPort (config m))) = None) ->
  (forall t, env_dial env t (tcp_addr m (CmdPort (config m))) = None) ->
  (forall t, env_resolve env t (tcp_addr m (DataPort (config m))) = Some e) ->
  exists w' t,
    start env (m, w) =
      Done (Err (fmt_Errorf "couldn't resolve VARA data address: " e))
           (set_cmdConn (Some (length (socks w))) m, w') /\
    trace w' = trace w ++ t /\
    sock_is_open w' (length (socks w)) /\
    spawned t = [Some (length (socks w))] /\
    writes t = [] /\
    Forall (fun ev => forall k, ev <> EvClose k) t.
Proof.
  intros Hc Hd Hr1 Hd1 Hr2. eexists _, _. split.
  - unfold start. unfold tryM at 1. unfold bindM at 1 2. unfold get_m at 1.
    cbn [fst snd]. rewrite Hc. unfold tryM at 1. unfold bindM at 1.
    rewrite (connectTCP_reached env "command" _ m w Hr1 Hd1).
    unfold bindM at 1. unfold upd_m at 1. cbn [fst snd]. unfold retM at 1.
    unfold bindM at 1 2. unfold get_m at 1. unfold emit, upd_w. cbn [fst snd].
    unfold tryM at 1. unfold bindM at 1 2. unfold get_m at 1. cbn [fst snd].
    cbn [dataConn set_cmdConn]. rewrite Hd. unfold tryM at 1. unfold bindM at 1.
    rewrite (connectTCP_unresolved env "data" (DataPort (config m))
               (set_cmdConn (Some (length (socks w))) m) _ e Hr2).
    reflexivity.
  - cbn [trace set_trace cmdConn set_cmdConn socks chans].
    split; [rewrite <- !app_assoc; reflexivity|]. split.
    { unfold sock_is_open. cbn [socks set_trace].
      rewrite list_lookup_middle by reflexivity. reflexivity. }
    unfold connect_events, dbg.
    destruct (debug env); (split; [reflexivity|]);
      (split; [reflexivity|repeat constructor; discriminate]).
Qed.

Lemma data_port_unreachable_keeps_command_channel_witness :
  cmdConn fresh_hf.1 = None /\ dataConn fresh_hf.1 = None /\
  (forall t, env_resolve env_no_data_port t
               (tcp_addr fresh_hf.1 (CmdPort (config fresh_hf.1))) = None) /\
  (forall t, env_dial env_no_data_port t
               (tcp_addr fresh_hf.1 (CmdPort (config fresh_hf.1))) = None) /\
  (forall t, env_resolve env_no_data_port t
               (tcp_addr fresh_hf.1 (DataPort (config fresh_hf.1)))
             = Some (ErrOther "no such host")) /\
  exists w',
    start env_no_data_port (fresh_hf.1, fresh_hf.2) =
      Done (Err (fmt_Errorf "couldn't resolve VARA data address: "
                   (ErrOther "no such host")))
           (set_cmdConn (Some 0%nat) fresh_hf.1, w') /\
    sock_is_open w' 0.
Proof.
  split; [reflexivity|]. split; [reflexivity|].
  split; [intros t; reflexivity|]. split; [intros t; reflexivity|].
  split; [intros t; reflexivity|].
  destruct (data_port_unreachable_keeps_command_channel env_no_data_port
              fresh_hf.1 fresh_hf.2 (ErrOther "no such host") eq_refl eq_refl
              (fun t => eq_refl) (fun t => eq_refl) (fun t => eq_refl))
    as (w' & t & H1 & _ & H3 & _).
  exists w'. split; [exact H1|exact H3].
Defined.

(** ** The commands of a dial and of a listen *)

Lemma start_events_writes env m n :
  writes (start_events env m n) = map (fun cmd => (n, cmd_line cmd)) (start_cmds m).
Proof.
  unfold start_events, start_cmds.
  rewrite !writes_app, !connect_events_writes, !cmd_events_writes.
  destruct (String.eqb (scheme m) "varahf");
    rewrite ?cmd_events_writes; reflexivity.
Qed.

Lemma dial_events_writes env m n url :
  writes (dial_events env m n url) = map (fun cmd => (n, cmd_line cmd)) (dial_cmds m url).
Proof.
  unfold dial_events, dial_cmds, bw_events, session_events. cbv zeta.
  rewrite !writes_app, start_events_writes, !map_app, cmd_events_writes.
  f_equal. f_equal; [|f_equal].
  - destruct (String.eqb (Values_Get (Params url) "bw") "");
      rewrite ?cmd_events_writes; reflexivity.
  - destruct (String.eqb (scheme m) "varahf"); [|reflexivity].
    destruct (String.eqb (Values_Get (Params url) "p2p") "true");
      rewrite cmd_events_writes; reflexivity.
Qed.

(** X13.  The commands of a dial, for every scheme and every accepted
    option, on a session without channel handles and in a reliable
    environment: PUBLIC ON; CWID ON for varahf only; COMPRESSION TEXT;
    MYCALL with the call sign of the session; BW with the bandwidth when the
    option is there; for varahf only, P2P SESSION when the option p2p is
    true and WINLINK SESSION otherwise; CONNECT with both call signs.  They
    are written on the command channel in this order and nothing else is.
    The remote call sign is then the target, and the state has not
    changed: the CONNECT command does not make the session connected. *)
Theorem dial_commands env url m w :
  env_reliable env -> cmdConn m = None -> dataConn m = None ->
  Scheme url = scheme m -> bw_accepted url ->
  exists m1 w1 t,
    DialURL_request env url (m, w) = Done (Ok tt) (m1, w1) /\
    trace w1 = trace w ++ t /\
    writes t = map (fun cmd => (length (socks w), cmd_line cmd)) (dial_cmds m url) /\
    toCall m1 = Target url /\ lastState m1 = lastState m.
Proof.
  intros He Hc Hd Hs Hbw.
  eexists _, _, _. split; [apply (DialURL_request_run env url m w He Hc Hd Hs Hbw)|].
  split; [reflexivity|]. split; [apply dial_events_writes|].
  split; reflexivity.
Qed.

Lemma dial_commands_witness :
  env_reliable env_ok /\ cmdConn fresh_hf.1 = None /\ dataConn fresh_hf.1 = None /\
  Scheme url_p2p = scheme fresh_hf.1 /\ bw_accepted url_p2p /\
  exists m1 w1,
    DialURL_request env_ok url_p2p (fresh_hf.1, fresh_hf.2) = Done (Ok tt) (m1, w1) /\
    writes (trace w1) =
      map (fun cmd => (0%nat, cmd_line cmd))
          ["PUBLIC ON"; "CWID ON"; "COMPRESSION TEXT"; "MYCALL ME"; "P2P SESSION";
           "CONNECT ME N0CALL"].
Proof.
  assert (Hbw : bw_accepted url_p2p) by (left; vm_compute; reflexivity).
  split; [exact env_ok_reliable|]. split; [reflexivity|]. split; [reflexivity|].
  split; [reflexivity|]. split; [exact Hbw|].
  destruct (dial_commands env_ok url_p2p fresh_hf.1 fresh_hf.2
              env_ok_reliable eq_refl eq_refl eq_refl Hbw)
    as (m1 & w1 & t & H1 & H2 & H3 & _).
  exists m1, w1. split; [exact H1|].
  rewrite H2. change (trace fresh_hf.2) with (@nil Event).
  rewrite app_nil_l, H3. vm_compute. reflexivity.
Defined.

(** X14.  [Listen] on a session without channel handles, in a reliable
    environment: the commands written are those of [start], then LISTEN ON;
    the state and the remote call sign have not changed; and an [Accept]
    that follows is suspended as long as nothing is published. *)
Theorem Listen_commands env m w :
  env_reliable env -> cmdConn m = None -> dataConn m = None ->
  exists m1 w1 t,
    Listen env (m, w) = Done (Ok tt) (m1, w1) /\
    trace w1 = trace w ++ t /\
    writes t = map (fun cmd => (length (socks w), cmd_line cmd))
                   (start_cmds m ++ ["LISTEN ON"]) /\
    lastState m1 = lastState m /\ toCall m1 = toCall m /\
    (slot m w = Some None -> Accept (m1, w1) = Blocked (m1, w1)).
Proof.
  intros He Hc Hd.
  eexists _, _, _. split; [apply (Listen_run env m w He Hc Hd)|].
  split; [reflexivity|]. split.
  { rewrite writes_app, start_events_writes, cmd_events_writes, map_app. reflexivity. }
  split; [reflexivity|]. split; [reflexivity|].
  intros Hs. apply Accept_blocked. exact Hs.
Qed.

Lemma Listen_commands_witness :
  env_reliable env_ok /\ cmdConn fresh_hf.1 = None /\ dataConn fresh_hf.1 = None /\
  exists m1 w1 t,
    Listen env_ok (fresh_hf.1, fresh_hf.2) = Done (Ok tt) (m1, w1) /\
    trace w1 = trace fresh_hf.2 ++ t /\
    writes t = map (fun cmd => (0%nat, cmd_line cmd))
                   ["PUBLIC ON"; "CWID ON"; "COMPRESSION TEXT"; "MYCALL ME";
                    "LISTEN ON"].
Proof.
  split; [exact env_ok_reliable|]. split; [reflexivity|]. split; [reflexivity|].
  destruct (Listen_commands env_ok fresh_hf.1 fresh_hf.2 env_ok_reliable eq_refl eq_refl)
    as (m1 & w1 & t & H1 & H2 & H3 & _).
  exists m1, w1, t. split; [exact H1|]. split; [exact H2|]. exact H3.
Defined.

(** ** What the operations leave alone *)

Ltac keep_side :=
  lazymatch goal with
  | |- R_inv _ _ _ =>
      unfold R_inv, same_identity, no_remote;
      cbn [fst snd scheme myCall config cmdConn dataConn toCall busy connectChange
           lastState rig set_cmdConn set_dataConn set_toCall set_busy
           set_lastState set_rig];
      intros H; first [exact H | reflexivity]
  end.

Ltac keep_all :=
  repeat first [ respects_step | keep_side ].

Section Keeps.

Variable env : Env.
Variable I : Modem -> Prop.
Hypothesis I_is : (exists m0, I = same_identity m0) \/ I = no_remote.

Lemma I_cases (P : Prop) :
  ((forall m0, I = same_identity m0 -> P) /\ (I = no_remote -> P)) -> P.
Proof. intros [H1 H2]. destruct I_is as [[m0 E]|E]; eauto. Qed.

Lemma keeps_start : respects (R_inv I) (start env).
Proof.
  apply I_cases. split; [intros m0 ->|intros ->]; unfold start; keep_all.
Qed.

Lemma keeps_handleDisconnect : respects (R_inv I) (handleDisconnect env).
Proof.
  apply I_cases. split; [intros m0 ->|intros ->]; unfold handleDisconnect; keep_all.
Qed.

Lemma keeps_Listen : respects (R_inv I) (Listen env).
Proof.
  unfold Listen. repeat first [apply keeps_start | respects_step].
  all: apply I_cases; split; [intros m0 ->|intros ->]; keep_all.
Qed.

Lemma keeps_Accept : respects (R_inv I) Accept.
Proof.
  apply I_cases. split; [intros m0 ->|intros ->]; unfold Accept; keep_all.
Qed.

Lemma keeps_Close : respects (R_inv I) (Close env).
Proof.
  unfold Close. repeat first [apply keeps_handleDisconnect | respects_step].
  all: apply I_cases; split; [intros m0 ->|intros ->]; keep_all.
Qed.

Lemma keeps_handleCmd c : respects (R_inv I) (handleCmd env c).
Proof.
  unfold handleCmd. repeat first [apply keeps_handleDisconnect | respects_step].
  all: apply I_cases; split; [intros m0 ->|intros ->]; keep_all.
Qed.

Lemma keeps_handleCmds cmds : respects (R_inv I) (handleCmds env cmds).
Proof.
  induction cmds as [|c cmds IH]; cbn [handleCmds].
  - apply respects_ret; exact _.
  - repeat first [apply keeps_handleCmd | apply IH | respects_step].
Qed.

Lemma keeps_cmdListen reads : respects (R_inv I) (cmdListen env reads).
Proof.
  induction reads as [|r reads IH]; cbn [cmdListen];
    repeat first [apply keeps_handleCmds | apply IH | respects_step].
  all: apply I_cases; split; [intros m0 ->|intros ->]; keep_all.
Qed.

Lemma keeps_run_op op s :
  not_a_dial op \/ (exists m0, I = same_identity m0) ->
  I s.1 -> I (run_op env op s).1.
Proof.
  intros Hop. destruct op; cbn [run_op].
  - apply (respects_upd_m (R_inv I)). intros m w.
    apply I_cases; split; [intros m0 ->|intros ->]; keep_side.
  - apply keeps_Listen.
  - destruct Hop as [[]|[m0 E]].
    assert (H : respects (R_inv I) (DialURL env url)).
    { unfold DialURL, DialURL_wait, DialURL_request.
      repeat first [apply keeps_start | respects_step].
      all: rewrite E; keep_all. }
    apply H.
  - apply keeps_Accept.
  - apply keeps_Close.
  - apply keeps_handleCmd.
  - apply keeps_cmdListen.
  - intros H. exact H.
Qed.

End Keeps.

#[local] Instance same_identity_refl : Reflexive same_identity.
Proof. intros m. repeat split. Qed.

Lemma session_identity_is_kept_aux env ops s :
  same_identity s.1 (run_ops env ops s).1.
Proof.
  assert (H : forall s', same_identity s.1 s'.1 ->
                         same_identity s.1 (run_ops env ops s').1).
  { induction ops as [|op ops IH]; intros s' Hs'; [exact Hs'|].
    cbn [run_ops fold_left]. apply IH.
    apply (keeps_run_op env (same_identity s.1)); eauto. }
  apply H. reflexivity.
Qed.

(** X15.  No operation changes what identifies a session.  After any
    sequence of calls of the owner, of lines dispatched by the Event Reader
    and of closes of facades, the scheme, the call sign, the configuration
    and the notification channel of the session are those it started
    with. *)
Theorem session_identity_is_kept env ops s :
  scheme (run_ops env ops s).1 = scheme s.1 /\
  myCall (run_ops env ops s).1 = myCall s.1 /\
  config (run_ops env ops s).1 = config s.1 /\
  connectChange (run_ops env ops s).1 = connectChange s.1.
Proof. exact (session_identity_is_kept_aux env ops s). Qed.

(** X16.  The remote call sign is written by [DialURL] and by the teardown
    only.  On a session that has none, no sequence of operations without a
    dial gives it one, whatever CONNECTED lines are dispatched; so every
    facade that [Accept] then returns has the empty call sign as its remote
    address. *)
Theorem remote_call_sign_needs_a_dial env ops s :
  toCall s.1 = "" -> Forall not_a_dial ops ->
  toCall (run_ops env ops s).1 = "" /\
  forall v s1,
    Accept (run_ops env ops s) = Done (Ok v) s1 ->
    RemoteAddr v = mkAddr "" (scheme s.1).
Proof.
  intros Hs Hops.
  assert (H : toCall (run_ops env ops s).1 = "").
  { revert s Hs. induction Hops as [|op ops Hop _ IH]; intros s Hs; [exact Hs|].
    cbn [run_ops fold_left]. apply IH.
    apply (keeps_run_op env no_remote); eauto. }
  split; [exact H|].
  intros v s1 Hacc.
  pose proof (session_identity_is_kept_aux env ops s) as (Hsch & _).
  destruct (run_ops env ops s) as [m w] eqn:E.
  apply Accept_Ok_inv in Hacc as (_ & d & _ & -> & _).
  unfold RemoteAddr. cbn [modem fst] in *. rewrite H, Hsch. reflexivity.
Qed.

Lemma remote_call_sign_needs_a_dial_witness :
  toCall fresh_hf.1 = "" /\
  Forall not_a_dial [OpListen; OpLine "CONNECTED REMOTE1"; OpLine "BUSY ON"] /\
  toCall (run_ops env_ok [OpListen; OpLine "CONNECTED REMOTE1"; OpLine "BUSY ON"]
            fresh_hf).1 = "".
Proof.
  assert (H : Forall not_a_dial [OpListen; OpLine "CONNECTED REMOTE1"; OpLine "BUSY ON"])
    by (repeat constructor).
  split; [reflexivity|]. split; [exact H|].
  apply (remote_call_sign_needs_a_dial env_ok _ fresh_hf eq_refl H).
Defined.

(** ** The bandwidth option, the new session, the addresses *)

Lemma contains_elem_of c s : contains c s = true <-> s ∈ c.
Proof.
  induction c as [|e c IH]; cbn [contains].
  - split; [discriminate|]. intros H. apply elem_of_nil in H. destruct H.
  - rewrite elem_of_cons. destruct (String.eqb_spec e s) as [->|Hne].
    + tauto.
    + rewrite IH. split; [tauto|]. intros [->|H]; [contradiction|exact H].
Qed.

(** X17.  [setBandwidth] by cases on the option bw of the URL: absent or
    empty, it does nothing and returns no error; not one of 500, 2300 and
    2750, it returns the error that names the value and does nothing, so it
    writes no command; one of them, it is the write of the command BW
    followed by the value, whose error it returns. *)
Theorem setBandwidth_cases env url s :
  let bw := Values_Get (Params url) "bw" in
  (bw = "" -> setBandwidth env url s = Done (Ok tt) s) /\
  (bw <> "" -> bw ∉ Bandwidths ->
   setBandwidth env url s =
   Done (Err (errors_New ("bandwidth " +:+ bw +:+ " not supported"))) s) /\
  (bw ∈ Bandwidths -> setBandwidth env url s = writeCmd env ("BW" +:+ bw) s) /\
  (bw ∈ Bandwidths <-> bw = "500" \/ bw = "2300" \/ bw = "2750").
Proof.
  cbv zeta. unfold setBandwidth, Bandwidths. cbv zeta.
  set (bw := Values_Get (Params url) "bw").
  split; [|split; [|split]].
  - intros ->. reflexivity.
  - intros Hne Hnot. rewrite (string_eqb_false _ _ Hne).
    destruct (contains bandwidths bw) eqn:E; [|reflexivity].
    apply contains_elem_of in E. contradiction.
  - intros Hin. assert (Hne : bw <> "").
    { intros E. rewrite E in Hin. unfold bandwidths in Hin.
      rewrite !elem_of_cons, elem_of_nil in Hin.
      destruct Hin as [H|[H|[H|[]]]]; discriminate. }
    rewrite (string_eqb_false _ _ Hne).
    apply contains_elem_of in Hin. rewrite Hin. reflexivity.
  - unfold bandwidths. rewrite !elem_of_cons, elem_of_nil. tauto.
Qed.

(** X18.  [NewModem]: the configuration of the new session has no zero
    field, a field the caller has set is kept and one left at zero takes
    the default; the session is disconnected, not busy, without channel
    handles, PTT hook or remote call sign; its notification channel is a new
    one, with an empty buffer, and the channels of the world are as they
    were; its address is the call sign and the scheme given. *)
Theorem NewModem_session sch call cfg w :
  let m := (NewModem sch call cfg w).1 in
  let w' := (NewModem sch call cfg w).2 in
  (Host (config m) <> "" /\ CmdPort (config m) <> 0 /\ DataPort (config m) <> 0) /\
  (Host (config m) = if decide (Host cfg = "") then "localhost" else Host cfg) /\
  (CmdPort (config m) = if decide (CmdPort cfg = 0) then 8300 else CmdPort cfg) /\
  (DataPort (config m) = if decide (DataPort cfg = 0) then 8301 else DataPort cfg) /\
  idle (m, w') /\ lastState m = disconnected /\ Busy m = false /\
  rig m = None /\ toCall m = "" /\
  connectChange m = length (chans w) /\
  (forall ch, (ch < length (chans w))%nat -> chans w' !! ch = chans w !! ch) /\
  socks w' = socks w /\ trace w' = trace w /\
  Modem_Addr m = mkAddr call sch.
Proof.
  cbv zeta. unfold NewModem, mergo_Merge, defaultConfig.
  cbn [fst snd config Host CmdPort DataPort].
  assert (H1 : (if String.eqb (Host cfg) "" then "localhost" else Host cfg) =
               if decide (Host cfg = "") then "localhost" else Host cfg).
  { destruct (String.eqb_spec (Host cfg) ""), (decide (Host cfg = ""));
      congruence. }
  assert (H2 : forall z d, (if Z.eqb z 0 then d else z) = if decide (z = 0) then d else z).
  { intros z d. destruct (Z.eqb_spec z 0), (decide (z = 0)); congruence. }
  rewrite H1, !H2.
  split.
  { destruct (decide (Host cfg = "")), (decide (CmdPort cfg = 0)),
      (decide (DataPort cfg = 0)); repeat split; (discriminate || assumption). }
  repeat split.
  - unfold slot. cbn [fst snd connectChange chans set_chans].
    apply list_lookup_middle. reflexivity.
  - intros ch Hlt. cbn [chans set_chans]. apply lookup_app_l. exact Hlt.
Qed.

(** X19.  The addresses of a facade that [Accept] returns: the local one is
    the address of the listener, the call sign and the scheme of the
    session; the remote one is the remote call sign of the session at that
    moment, with the same scheme. *)
Theorem facade_addresses m w v s1 :
  Accept (m, w) = Done (Ok v) s1 ->
  LocalAddr v = Modem_Addr m /\
  String_ (LocalAddr v) = myCall m /\ Network (LocalAddr v) = scheme m /\
  String_ (RemoteAddr v) = toCall m /\ Network (RemoteAddr v) = scheme m.
Proof.
  intros H. apply Accept_Ok_inv in H as (_ & d & _ & -> & _).
  repeat split.
Qed.

Lemma facade_addresses_witness :
  exists v s1,
    Accept (called.1, called.2) = Done (Ok v) s1 /\
    LocalAddr v = mkAddr "ME" "varahf" /\
    String_ (RemoteAddr v) = "".
Proof.
  destruct (Accept (called.1, called.2)) as [[v|e] s1| |] eqn:E;
    try (exfalso; vm_compute in E; discriminate).
  exists v, s1. split; [reflexivity|].
  destruct (facade_addresses called.1 called.2 v s1 E) as (H1 & _ & _ & H4 & _).
  split; [rewrite H1; reflexivity|rewrite H4; reflexivity].
Defined.
